(** * The run lifecycle of the image transformer component

    A shallow embedding of [src/components/image-transformer.tsx]: the React
    state of [ImageTransformer], its event handlers ([onDrop],
    [handleRemoveImage], [handleCancel], [fetchPastRuns], [generateImage]),
    the progress ticker of [startProgressSimulation], and the event loop that
    interleaves user events, timer firings and the settling of the remote
    calls made through the [flowscale] client.

    Handlers are written as programs of a small free monad whose nodes are
    the synchronous effects of the source (state setters, [alert],
    [console.error], [setInterval], [clearInterval]) and its three [await]
    points.  A program runs atomically up to its next [await], which is how
    the single-threaded JavaScript event loop runs the source. *)

From Stdlib Require Import ZArith List String Bool Lia.
Import ListNotations.

Open Scope Z_scope.
Open Scope string_scope.

(** ** Data of the source *)

(** A browser [File]: only [size] is read by the component; [object_url]
    stands for what [URL.createObjectURL] returns for the file. *)
Record File := mkFile {
  file_name : string;
  size : Z;
  object_url : string
}.

(** [interface FlowscaleResponse].  A value received from the network is only
    cast to the interface, so [data] may be absent ([None]); a missing string
    field behaves like a string different from every constant it is compared
    with. *)
Record FlowscaleData := mkData {
  download_url : string;
  generation_status : string
}.

Record FlowscaleResponse := mkResponse {
  status : string;
  runId : string;
  data : option FlowscaleData
}.

Record RunOutput := mkRunOutput {
  filename : string;
  url : string
}.

Record Run := mkRun {
  _id : string;
  run_status : string;
  outputs : list RunOutput
}.

Record RunsData := mkRunsData {
  group_id : string;
  count : Z;
  runs : list Run
}.

Record RunsResponse := mkRunsResponse {
  runs_response_status : string;
  runs_response_data : option RunsData
}.

(** The [inputs] object passed to [executeWorkflowAsync]. *)
Record Inputs := mkInputs {
  image_22068 : File;
  default_value_48043 : string
}.

(** What a [catch] clause can receive.  [ThrownNullish] is [undefined] or
    [null]; for any other value, [message] is [Some m] exactly when
    [typeof error.message === 'string']. *)
Inductive JsThrown :=
| ThrownNullish
| ThrownValue (message : option string).

(** [new Error(msg)]. *)
Definition Error (msg : string) : JsThrown := ThrownValue (Some msg).

(** The [TypeError] raised by a property access on [undefined] or [null]. *)
Definition TypeError (property : string) : JsThrown :=
  Error ("Cannot read properties of undefined (reading '" ++ property ++ "')").

(** How a promise settles. *)
Inductive Settled (X : Type) :=
| Fulfilled (x : X)
| Rejected (e : JsThrown).
Arguments Fulfilled {X} x.
Arguments Rejected {X} e.

Definition TimerId := nat.
Definition TaskId := nat.

(** ** Programs *)

(** The synchronous effects used by the component. *)
Inductive Action :=
| setInputFile (f : option File)
| setPromptText (s : string)
| setIsLoading (b : bool)
| setUploadProgress (n : Z)
| setOutputImageUrl (s : string)
| setCurrentRunId (id : option string)
| setPastRuns (rs : list Run)
| setPreviewUrl (s : string)
| alert (msg : string)
| console_error (msg : string) (e : JsThrown)
| clearInterval (interval : TimerId).

(** Handler bodies.  [ReadUploadProgress] is React handing the latest
    [uploadProgress] to a functional updater; the callback of [SetInterval]
    receives the handle that [setInterval] returns, as the closure of the
    source does through [interval]. *)
Inductive Prog (A : Type) : Type :=
| Ret (a : A)
| Throw (e : JsThrown)
| Do (a : Action) (k : Prog A)
| ReadUploadProgress (k : Z -> Prog A)
| SetInterval (callback : TimerId -> Prog unit) (ms : Z) (k : TimerId -> Prog A)
| AwaitExecuteWorkflow (workflow : string) (inputs : Inputs)
    (k : Settled (option FlowscaleResponse) -> Prog A)
| AwaitCancelRun (run : string) (k : Settled unit -> Prog A)
| AwaitGetRuns (k : Settled (option RunsResponse) -> Prog A).

Arguments Ret {A} a.
Arguments Throw {A} e.
Arguments Do {A} a k.
Arguments ReadUploadProgress {A} k.
Arguments SetInterval {A} callback ms k.
Arguments AwaitExecuteWorkflow {A} workflow inputs k.
Arguments AwaitCancelRun {A} run k.
Arguments AwaitGetRuns {A} k.

Fixpoint bind {A B : Type} (p : Prog A) (f : A -> Prog B) : Prog B :=
  match p with
  | Ret a => f a
  | Throw e => Throw e
  | Do a k => Do a (bind k f)
  | ReadUploadProgress k => ReadUploadProgress (fun prev => bind (k prev) f)
  | SetInterval cb ms k => SetInterval cb ms (fun i => bind (k i) f)
  | AwaitExecuteWorkflow wf i k => AwaitExecuteWorkflow wf i (fun o => bind (k o) f)
  | AwaitCancelRun r k => AwaitCancelRun r (fun o => bind (k o) f)
  | AwaitGetRuns k => AwaitGetRuns (fun o => bind (k o) f)
  end.

Declare Scope prog_scope.
Delimit Scope prog_scope with prog.
Bind Scope prog_scope with Prog.

Notation "x <- p ;; q" := (bind p (fun x => q))
  (at level 61, p at next level, right associativity) : prog_scope.
Notation "p ;; q" := (bind p (fun _ => q))
  (at level 61, right associativity) : prog_scope.

Definition do (a : Action) : Prog unit := Do a (Ret tt).
Coercion do : Action >-> Prog.

(** [try { body } catch (error) { handler error }]. *)
Fixpoint try_catch {A : Type} (body : Prog A) (handler : JsThrown -> Prog A) : Prog A :=
  match body with
  | Ret a => Ret a
  | Throw e => handler e
  | Do a k => Do a (try_catch k handler)
  | ReadUploadProgress k => ReadUploadProgress (fun prev => try_catch (k prev) handler)
  | SetInterval cb ms k => SetInterval cb ms (fun i => try_catch (k i) handler)
  | AwaitExecuteWorkflow wf i k =>
      AwaitExecuteWorkflow wf i (fun o => try_catch (k o) handler)
  | AwaitCancelRun r k => AwaitCancelRun r (fun o => try_catch (k o) handler)
  | AwaitGetRuns k => AwaitGetRuns (fun o => try_catch (k o) handler)
  end.

(** [try { body } finally { final }]: [final] runs on both exits, and the
    exception of [body], if any, is thrown again after it. *)
Fixpoint try_finally {A : Type} (body : Prog A) (final : Prog unit) : Prog A :=
  match body with
  | Ret a => (final ;; Ret a)%prog
  | Throw e => (final ;; Throw e)%prog
  | Do a k => Do a (try_finally k final)
  | ReadUploadProgress k => ReadUploadProgress (fun prev => try_finally (k prev) final)
  | SetInterval cb ms k => SetInterval cb ms (fun i => try_finally (k i) final)
  | AwaitExecuteWorkflow wf i k =>
      AwaitExecuteWorkflow wf i (fun o => try_finally (k o) final)
  | AwaitCancelRun r k => AwaitCancelRun r (fun o => try_finally (k o) final)
  | AwaitGetRuns k => AwaitGetRuns (fun o => try_finally (k o) final)
  end.

Definition try_catch_finally {A : Type} (body : Prog A)
    (handler : JsThrown -> Prog A) (final : Prog unit) : Prog A :=
  try_finally (try_catch body handler) final.

(** [await promise]: the value of a fulfilled promise, the exception of a
    rejected one. *)
Definition settle {X : Type} (o : Settled X) : Prog X :=
  match o with
  | Fulfilled x => Ret x
  | Rejected e => Throw e
  end.

(** The three methods of the [flowscale] client, awaited. *)
Definition executeWorkflowAsync (workflow : string) (inputs : Inputs)
  : Prog (option FlowscaleResponse) := AwaitExecuteWorkflow workflow inputs settle.
Definition cancelRun (run : string) : Prog unit := AwaitCancelRun run settle.
Definition getRuns : Prog (option RunsResponse) := AwaitGetRuns settle.

(** [obj.name] on a value that may be [undefined]. *)
Definition prop {T A : Type} (obj : option T) (name : string) (get : T -> A) : Prog A :=
  match obj with
  | Some t => Ret (get t)
  | None => Throw (TypeError name)
  end.

(** [error.message], as [Some m] when it is a string. *)
Definition message_of (error : JsThrown) : Prog (option string) :=
  match error with
  | ThrownNullish => Throw (TypeError "message")
  | ThrownValue m => Ret m
  end.

(** [hay.includes(needle)]. *)
Fixpoint includes (needle hay : string) : bool :=
  if String.prefix needle hay then true
  else match hay with
       | EmptyString => false
       | String _ rest => includes needle rest
       end.

(** Truthiness of a [string | null]. *)
Definition truthy (s : option string) : bool :=
  match s with
  | Some EmptyString | None => false
  | Some _ => true
  end.

Open Scope list_scope.

(** ** The component *)

Section ImageTransformer.

(** [process.env.NEXT_PUBLIC_FLOWSCALE_WORKFLOW_ID], fixed when the module
    is loaded. *)
Variable workflowId : string.

Local Open Scope prog_scope.

Definition onDrop (acceptedFiles : list File) : Prog unit :=
  match acceptedFiles with
  | file :: _ =>
      if (size file <=? 10 * 1024 * 1024)%Z then
        setInputFile (Some file) ;;
        setPreviewUrl (object_url file)
      else
        alert "File size must be less than 10MB"
  | [] => alert "File size must be less than 10MB"
  end.

(** The function given to [setUploadProgress] by the interval callback. *)
Definition progress_updater (interval : TimerId) (prev : Z) : Prog Z :=
  if (95 <=? prev)%Z then
    clearInterval interval ;;
    Ret prev
  else
    Ret (prev + 5).

(** The callback given to [setInterval]. *)
Definition progress_callback (interval : TimerId) : Prog unit :=
  prev <- ReadUploadProgress Ret ;;
  next <- progress_updater interval prev ;;
  setUploadProgress next.

Definition startProgressSimulation : Prog unit :=
  setUploadProgress 0 ;;
  SetInterval progress_callback 500 (fun _ => Ret tt).

Definition handleRemoveImage : Prog unit :=
  setInputFile None ;;
  setPreviewUrl "".

(** The [try] and [catch] blocks of [handleCancel]. *)
Definition handleCancel_try (run : string) : Prog unit :=
  cancelRun run ;;
  setIsLoading false ;;
  setCurrentRunId None ;;
  setUploadProgress 0.

Definition handleCancel_catch (error : JsThrown) : Prog unit :=
  console_error "Error cancelling run:" error.

(** [handleCancel], closed over the [currentRunId] of the render in which
    the button was clicked. *)
Definition handleCancel (currentRunId : option string) : Prog unit :=
  match currentRunId with
  | Some run =>
      if truthy currentRunId then
        try_catch (handleCancel_try run) handleCancel_catch
      else Ret tt
  | None => Ret tt
  end.

Definition fetchPastRuns : Prog unit :=
  try_catch
    (response <- getRuns ;;
     d <- prop response "data" runs_response_data ;;
     rs <- prop d "runs" runs ;;
     setPastRuns rs)
    (fun error => console_error "Error fetching past runs:" error).

Definition timeout_message : string :=
  "Image processing took too long to complete. Please try again.".
Definition generic_message : string :=
  "Error processing image. Please try again.".

(** The [try] block of [generateImage]. *)
Definition generateImage_try (file : File) (promptText : string) : Prog unit :=
  let inputs := {| image_22068 := file; default_value_48043 := promptText |} in
  setOutputImageUrl "" ;;
  setUploadProgress 0 ;;
  result <- executeWorkflowAsync workflowId inputs ;;
  run <- prop result "runId" runId ;;
  setCurrentRunId (Some run) ;;
  st <- prop result "status" status ;;
  success <- (if String.eqb st "success" then
                d <- prop result "data" data ;;
                gs <- prop d "generation_status" generation_status ;;
                Ret (String.eqb gs "success")
              else Ret false) ;;
  if success : bool then
    setUploadProgress 100 ;;
    d <- prop result "data" data ;;
    download <- prop d "download_url" download_url ;;
    setOutputImageUrl download ;;
    fetchPastRuns
  else
    Throw (Error "Generation failed").

(** The [catch] block of [generateImage]. *)
Definition generateImage_catch (error : JsThrown) : Prog unit :=
  console_error "Error processing image:" error ;;
  message <- message_of error ;;
  if match message with
     | Some m => includes "timed out" m
     | None => false
     end
  then alert timeout_message
  else alert generic_message.

(** The [finally] block of [generateImage]. *)
Definition generateImage_finally : Prog unit :=
  setIsLoading false ;;
  setCurrentRunId None.

(** [generateImage], closed over the [inputFile] and [promptText] of the
    render in which the button was clicked. *)
Definition generateImage (inputFile : option File) (promptText : string) : Prog unit :=
  match inputFile with
  | None => alert "Please select an image first"
  | Some file =>
      setIsLoading true ;;
      startProgressSimulation ;;
      try_catch_finally
        (generateImage_try file promptText)
        generateImage_catch
        generateImage_finally
  end.

(** ** State and event loop *)

(** The [useState] cells of the component. *)
Record Store := mkStore {
  inputFile : option File;
  promptText : string;
  isLoading : bool;
  uploadProgress : Z;
  outputImageUrl : string;
  currentRunId : option string;
  pastRuns : list Run;
  previewUrl : string
}.

(** What the component does to the outside. *)
Inductive Effect :=
| Alerted (msg : string)
| ConsoleError (msg : string) (e : JsThrown)
| ExecuteWorkflowRequest (workflow : string) (inputs : Inputs)
| CancelRunRequest (run : string)
| GetRunsRequest
| IntervalSet (interval : TimerId) (ms : Z)
| UnhandledRejection (e : JsThrown).

(** The component at a point between two turns of the event loop: its
    state, the intervals that are set, the handlers suspended at an [await],
    and everything it has done so far (oldest first). *)
Record World := mkWorld {
  store : Store;
  timers : list (TimerId * Prog unit);
  next_timer : TimerId;
  tasks : list (TaskId * Prog unit);
  next_task : TaskId;
  log : list Effect
}.

Definition with_store (f : Store -> Store) (w : World) : World :=
  mkWorld (f (store w)) (timers w) (next_timer w) (tasks w) (next_task w) (log w).

Definition emit (e : Effect) (w : World) : World :=
  mkWorld (store w) (timers w) (next_timer w) (tasks w) (next_task w) (log w ++ [e]).

Definition remove_key {V : Type} (k : nat) (l : list (nat * V)) : list (nat * V) :=
  filter (fun kv => negb (Nat.eqb (fst kv) k)) l.

Fixpoint lookup {V : Type} (k : nat) (l : list (nat * V)) : option V :=
  match l with
  | [] => None
  | (k', v) :: rest => if Nat.eqb k' k then Some v else lookup k rest
  end.

Definition perform (a : Action) (w : World) : World :=
  match a with
  | setInputFile f =>
      with_store (fun s => mkStore f (promptText s) (isLoading s) (uploadProgress s)
                             (outputImageUrl s) (currentRunId s) (pastRuns s) (previewUrl s)) w
  | setPromptText p =>
      with_store (fun s => mkStore (inputFile s) p (isLoading s) (uploadProgress s)
                             (outputImageUrl s) (currentRunId s) (pastRuns s) (previewUrl s)) w
  | setIsLoading b =>
      with_store (fun s => mkStore (inputFile s) (promptText s) b (uploadProgress s)
                             (outputImageUrl s) (currentRunId s) (pastRuns s) (previewUrl s)) w
  | setUploadProgress n =>
      with_store (fun s => mkStore (inputFile s) (promptText s) (isLoading s) n
                             (outputImageUrl s) (currentRunId s) (pastRuns s) (previewUrl s)) w
  | setOutputImageUrl u =>
      with_store (fun s => mkStore (inputFile s) (promptText s) (isLoading s) (uploadProgress s)
                             u (currentRunId s) (pastRuns s) (previewUrl s)) w
  | setCurrentRunId r =>
      with_store (fun s => mkStore (inputFile s) (promptText s) (isLoading s) (uploadProgress s)
                             (outputImageUrl s) r (pastRuns s) (previewUrl s)) w
  | setPastRuns rs =>
      with_store (fun s => mkStore (inputFile s) (promptText s) (isLoading s) (uploadProgress s)
                             (outputImageUrl s) (currentRunId s) rs (previewUrl s)) w
  | setPreviewUrl u =>
      with_store (fun s => mkStore (inputFile s) (promptText s) (isLoading s) (uploadProgress s)
                             (outputImageUrl s) (currentRunId s) (pastRuns s) u) w
  | alert msg => emit (Alerted msg) w
  | console_error msg e => emit (ConsoleError msg e) w
  | clearInterval i =>
      mkWorld (store w) (remove_key i (timers w)) (next_timer w) (tasks w) (next_task w) (log w)
  end.

(** A handler suspended at an [await], the request having been sent. *)
Definition suspend (request : Effect) (p : Prog unit) (w : World) : World :=
  mkWorld (store w) (timers w) (next_timer w)
          (tasks w ++ [(next_task w, p)]) (S (next_task w)) (log w ++ [request]).

(** One turn of the event loop: [p] runs until it returns, throws, or
    reaches an [await].  An exception that reaches the top of a handler is
    an unhandled rejection. *)
Fixpoint exec (p : Prog unit) (w : World) : World :=
  match p with
  | Ret _ => w
  | Throw e => emit (UnhandledRejection e) w
  | Do a k => exec k (perform a w)
  | ReadUploadProgress k => exec (k (uploadProgress (store w))) w
  | SetInterval cb ms k =>
      let i := next_timer w in
      exec (k i) (mkWorld (store w) (timers w ++ [(i, cb i)]) (S i)
                          (tasks w) (next_task w) (log w ++ [IntervalSet i ms]))
  | AwaitExecuteWorkflow wf inputs _ => suspend (ExecuteWorkflowRequest wf inputs) p w
  | AwaitCancelRun run _ => suspend (CancelRunRequest run) p w
  | AwaitGetRuns _ => suspend GetRunsRequest p w
  end.

(** What can happen to the mounted component.  The three [Settle] events
    are the remote calls of the suspended handlers coming back. *)
Inductive Event :=
| Drop (acceptedFiles : list File)
| ClickRemoveImage
| TypePrompt (s : string)
| ClickTransform
| ClickCancel
| TimerFire (interval : TimerId)
| SettleExecuteWorkflow (task : TaskId) (o : Settled (option FlowscaleResponse))
| SettleCancelRun (task : TaskId) (o : Settled unit)
| SettleGetRuns (task : TaskId) (o : Settled (option RunsResponse)).

Definition finish_task (t : TaskId) (w : World) : World :=
  mkWorld (store w) (timers w) (next_timer w) (remove_key t (tasks w)) (next_task w) (log w).

(** [step ev w] is [None] when [ev] cannot happen in [w]: the button is not
    rendered or is disabled, the interval is not set, or no handler waits
    for that call. *)
Definition step (ev : Event) (w : World) : option World :=
  let s := store w in
  match ev with
  | Drop files => Some (exec (onDrop files) w)
  | ClickRemoveImage =>
      if String.eqb (previewUrl s) "" then None else Some (exec handleRemoveImage w)
  | TypePrompt p => Some (exec (setPromptText p) w)
  | ClickTransform =>
      match inputFile s with
      | Some _ =>
          if isLoading s then None
          else Some (exec (generateImage (inputFile s) (promptText s)) w)
      | None => None
      end
  | ClickCancel =>
      if isLoading s then Some (exec (handleCancel (currentRunId s)) w) else None
  | TimerFire i =>
      match lookup i (timers w) with
      | Some callback => Some (exec callback w)
      | None => None
      end
  | SettleExecuteWorkflow t o =>
      match lookup t (tasks w) with
      | Some (AwaitExecuteWorkflow _ _ k) => Some (exec (k o) (finish_task t w))
      | _ => None
      end
  | SettleCancelRun t o =>
      match lookup t (tasks w) with
      | Some (AwaitCancelRun _ k) => Some (exec (k o) (finish_task t w))
      | _ => None
      end
  | SettleGetRuns t o =>
      match lookup t (tasks w) with
      | Some (AwaitGetRuns k) => Some (exec (k o) (finish_task t w))
      | _ => None
      end
  end.

Fixpoint run (evs : list Event) (w : World) : option World :=
  match evs with
  | [] => Some w
  | ev :: rest =>
      match step ev w with
      | Some w' => run rest w'
      | None => None
      end
  end.

(** The component as first rendered. *)
Definition initial_store : Store :=
  mkStore None "" false 0 "" None [] "".

(** The mounted component: the effect of [useEffect] has called
    [fetchPastRuns]. *)
Definition mounted : World :=
  exec fetchPastRuns (mkWorld initial_store [] 0%nat [] 0%nat []).


(** ** Suspended handlers *)

(** A handler as it waits at its next [await]: the synchronous statements
    before the [await] have run. *)
Fixpoint to_await (p : Prog unit) : Prog unit :=
  match p with
  | Do _ k => to_await k
  | _ => p
  end.

(** [generateImage] waiting for [executeWorkflowAsync] (line 151). *)
Definition generateImage_suspended (file : File) (promptText : string) : Prog unit :=
  to_await (try_catch_finally (generateImage_try file promptText)
                              generateImage_catch generateImage_finally).

(** [generateImage] waiting for its call of [fetchPastRuns] (line 157). *)
Definition generateImage_refreshing : Prog unit :=
  try_catch_finally fetchPastRuns generateImage_catch generateImage_finally.

(** [handleCancel] waiting for [cancelRun] (line 115). *)
Definition handleCancel_suspended (run : string) : Prog unit :=
  try_catch (handleCancel_try run) handleCancel_catch.

(** The handlers that can be waiting in a running component. *)
Inductive task_shape : Prog unit -> Prop :=
| shape_fetch : task_shape fetchPastRuns
| shape_executing (file : File) (promptText : string) :
    task_shape (generateImage_suspended file promptText)
| shape_refreshing : task_shape generateImage_refreshing
| shape_cancelling (run : string) : task_shape (handleCancel_suspended run).

(** ** Vocabulary of the properties *)

(** The result that [generateImage] treats as a success (line 154). *)
Definition full_success (o : Settled (option FlowscaleResponse)) : bool :=
  match o with
  | Fulfilled (Some r) =>
      String.eqb (status r) "success" &&
      match data r with
      | Some d => String.eqb (generation_status d) "success"
      | None => false
      end
  | _ => false
  end.

(** The states a component can be in: those some sequence of events leads
    to from the mounted component. *)
Definition reachable (w : World) : Prop :=
  exists evs, run evs mounted = Some w.

(** No submission and no cancellation is under way: the only handlers that
    wait are calls of [fetchPastRuns] made on their own. *)
Definition quiescent (w : World) : Prop :=
  Forall (fun t => snd t = fetchPastRuns) (tasks w).

Definition is_settle_execute (ev : Event) : bool :=
  match ev with
  | SettleExecuteWorkflow _ _ => true
  | _ => false
  end.

(** Events among which no [executeWorkflowAsync] call comes back. *)
Definition none_settles_execute (evs : list Event) : Prop :=
  forallb (fun ev => negb (is_settle_execute ev)) evs = true.

(** How often [getRuns] was requested. *)
Definition get_runs_requests (l : list Effect) : nat :=
  List.length (filter (fun e => match e with GetRunsRequest => true | _ => false end) l).

Definition is_cancel_request (e : Effect) : bool :=
  match e with
  | CancelRunRequest _ => true
  | _ => false
  end.

(** What holds of every reachable state. *)
Record consistent (w : World) : Prop := mkConsistent {
  tasks_shape : Forall (fun t => task_shape (snd t)) (tasks w);
  tasks_fresh : Forall (fun t => (fst t < next_task w)%nat) (tasks w);
  timers_shape : Forall (fun t => snd t = progress_callback (fst t)) (timers w);
  timers_fresh : Forall (fun t => (fst t < next_timer w)%nat) (timers w)
}.

(** A run id is held only while some [generateImage] waits for its call of
    [fetchPastRuns]. *)
Definition run_id_owned (w : World) : Prop :=
  currentRunId (store w) = None \/
  exists t, lookup t (tasks w) = Some generateImage_refreshing.

(** The call of [executeWorkflowAsync] made by the handler [t] is in flight,
    and it is the only submission or cancellation under way. *)
Definition in_flight (t : TaskId) (w : World) : Prop :=
  isLoading (store w) = true /\
  currentRunId (store w) = None /\
  (exists file prompt, lookup t (tasks w) = Some (generateImage_suspended file prompt)) /\
  Forall (fun x => fst x = t \/ snd x = fetchPastRuns) (tasks w).


(** The state that a sequence of events leads to from the mounted
    component (the mounted component itself when some event of the sequence
    cannot happen). *)
Definition after (evs : list Event) : World :=
  match run evs mounted with
  | Some w => w
  | None => mounted
  end.

(** ** Loading the module *)

(** The three variables of [process.env] that the module reads. *)
Record ProcessEnv := mkEnv {
  NEXT_PUBLIC_FLOWSCALE_API_KEY : option string;
  NEXT_PUBLIC_FLOWSCALE_API_URL : option string;
  NEXT_PUBLIC_FLOWSCALE_WORKFLOW_ID : option string
}.

(** The options given to [new FlowscaleAPI]. *)
Record FlowscaleOptions := mkOptions {
  apiKey : string;
  baseUrl : string;
  allowDangerouslyExposeApiKey : bool
}.

(** The constants of a loaded module: the options of the [flowscale] client
    and the workflow id. *)
Record Loaded := mkLoaded {
  flowscale : FlowscaleOptions;
  loaded_workflowId : string
}.

Definition value_of (v : option string) : string :=
  match v with
  | Some s => s
  | None => ""
  end.

(** The top level of the module (lines 42 to 62): the thrown error, or the
    constants. *)
Definition load_module (env : ProcessEnv) : JsThrown + Loaded :=
  if negb (truthy (NEXT_PUBLIC_FLOWSCALE_API_KEY env)) then
    inl (Error "NEXT_PUBLIC_FLOWSCALE_API_KEY is not defined")
  else if negb (truthy (NEXT_PUBLIC_FLOWSCALE_API_URL env)) then
    inl (Error "NEXT_PUBLIC_FLOWSCALE_API_URL is not defined")
  else if negb (truthy (NEXT_PUBLIC_FLOWSCALE_WORKFLOW_ID env)) then
    inl (Error "NEXT_PUBLIC_FLOWSCALE_WORKFLOW_ID is not defined")
  else
    inr (mkLoaded
           (mkOptions (value_of (NEXT_PUBLIC_FLOWSCALE_API_KEY env))
                      (value_of (NEXT_PUBLIC_FLOWSCALE_API_URL env))
                      true)
           (value_of (NEXT_PUBLIC_FLOWSCALE_WORKFLOW_ID env))).

(** ** The output section of the page *)

(** The three blocks of the "Generated Image" card (lines 238 to 275). *)
Inductive Panel :=
| GeneratingPanel
| GeneratedImage (src : string)
| EmptyPanel.

(** The blocks that are rendered, in the order of the source; the Cancel
    button is inside [GeneratingPanel]. *)
Definition output_section (s : Store) : list Panel :=
  (if isLoading s then [GeneratingPanel] else []) ++
  (if truthy (Some (outputImageUrl s)) && negb (isLoading s)
   then [GeneratedImage (outputImageUrl s)] else []) ++
  (if negb (isLoading s) && negb (truthy (Some (outputImageUrl s)))
   then [EmptyPanel] else []).

(** ** Vocabulary of the further properties *)

(** The size limit of [onDrop], in bytes. *)
Definition size_limit : Z := 10 * 1024 * 1024.

Definition is_execute_request (e : Effect) : bool :=
  match e with
  | ExecuteWorkflowRequest _ _ => true
  | _ => false
  end.

Definition is_click_transform (ev : Event) : bool :=
  match ev with
  | ClickTransform => true
  | _ => false
  end.

Definition is_unhandled (e : Effect) : bool :=
  match e with
  | UnhandledRejection _ => true
  | _ => false
  end.

(** [executeWorkflowAsync] comes back rejected with [undefined] or
    [null]. *)
Definition is_nullish_rejection (ev : Event) : bool :=
  match ev with
  | SettleExecuteWorkflow _ (Rejected ThrownNullish) => true
  | _ => false
  end.

(** The image of a request is within the size limit. *)
Definition request_within_limit (e : Effect) : Prop :=
  match e with
  | ExecuteWorkflowRequest _ inputs => (size (image_22068 inputs) <= size_limit)%Z
  | _ => True
  end.

(** The preview that belongs to a selection. *)
Definition preview_of (f : option File) : string :=
  match f with
  | Some file => object_url file
  | None => ""
  end.



(** ** Concrete data for the scenarios *)

Definition valid_png : File := mkFile "valid.png" 2048 "blob:valid.png".

Definition success_data : FlowscaleData := mkData "https://x/out.png" "success".

Definition success_result : FlowscaleResponse :=
  mkResponse "success" "run-1" (Some success_data).

Definition success_response : option FlowscaleResponse := Some success_result.

Definition second_response : option FlowscaleResponse :=
  Some (mkResponse "success" "run-2" (Some (mkData "https://x/out2.png" "success"))).

Definition runs_answer : option RunsResponse :=
  Some (mkRunsResponse "success"
          (Some (mkRunsData "group-1" 1
                   [mkRun "run-1" "completed"
                          [mkRunOutput "out.png" "https://x/out.png"]]))).

(** A file and a prompt have been given. *)
Definition select_events : list Event :=
  [Drop [valid_png]; TypePrompt "a cat"].

(** The button has then been clicked: handler 1 waits for
    [executeWorkflowAsync], interval 0 is set. *)
Definition submit_events : list Event :=
  select_events ++ [ClickTransform].

(** The call has then resolved as a success: handler 2 waits for
    [getRuns]. *)
Definition success_events : list Event :=
  submit_events ++ [SettleExecuteWorkflow 1%nat (Fulfilled success_response)].

(** Cancel has then been clicked: handler 3 waits for [cancelRun]. *)
Definition cancel_events : list Event :=
  success_events ++ [ClickCancel].

(** Three submissions that overlap: the first is cancelled while it
    refreshes the past runs, the second is made before the first ends, the
    third after the first has ended and before the second's call has
    resolved. *)
Definition overlapping_events : list Event :=
  cancel_events ++
  [SettleCancelRun 3%nat (Fulfilled tt);
   ClickTransform;
   SettleGetRuns 2%nat (Fulfilled runs_answer);
   ClickTransform;
   SettleExecuteWorkflow 4%nat (Fulfilled second_response)].

(** ** Association lists *)

Lemma lookup_In {V : Type} (k : nat) (l : list (nat * V)) (v : V) :
  lookup k l = Some v -> In (k, v) l.
Proof.
  induction l as [|[k' v'] l IH]; simpl; [discriminate|].
  destruct (Nat.eqb k' k) eqn:E.
  - intros [= ->]. apply Nat.eqb_eq in E. subst. now left.
  - intros H. right. now apply IH.
Qed.

Lemma lookup_fresh {V : Type} (k : nat) (l : list (nat * V)) :
  Forall (fun t => (fst t < k)%nat) l -> lookup k l = None.
Proof.
  induction 1 as [|[k' v'] l Hk _ IH]; simpl; [reflexivity|].
  simpl in Hk. destruct (Nat.eqb_spec k' k); [lia|exact IH].
Qed.

Lemma lookup_app {V : Type} (k : nat) (l l' : list (nat * V)) :
  lookup k (l ++ l') =
  match lookup k l with
  | Some v => Some v
  | None => lookup k l'
  end.
Proof.
  induction l as [|[k' v'] l IH]; simpl; [reflexivity|].
  destruct (Nat.eqb k' k); [reflexivity|exact IH].
Qed.

Lemma lookup_added {V : Type} (k : nat) (l : list (nat * V)) (v : V) :
  Forall (fun t => (fst t < k)%nat) l -> lookup k (l ++ [(k, v)]) = Some v.
Proof.
  intros H. rewrite lookup_app, (lookup_fresh k l H). simpl.
  now rewrite Nat.eqb_refl.
Qed.

Lemma lookup_kept {V : Type} (k k' : nat) (l : list (nat * V)) (v v' : V) :
  lookup k l = Some v -> lookup k (l ++ [(k', v')]) = Some v.
Proof. intros H. now rewrite lookup_app, H. Qed.

Lemma lookup_remove_other {V : Type} (k k' : nat) (l : list (nat * V)) :
  k <> k' -> lookup k (remove_key k' l) = lookup k l.
Proof.
  intros Hne. induction l as [|[j v] l IH]; simpl; [reflexivity|].
  destruct (Nat.eqb_spec j k'); simpl.
  - subst. destruct (Nat.eqb_spec k' k); [congruence|exact IH].
  - destruct (Nat.eqb j k); [reflexivity|exact IH].
Qed.

Lemma lookup_remove_same {V : Type} (k : nat) (l : list (nat * V)) :
  lookup k (remove_key k l) = None.
Proof.
  induction l as [|[j v] l IH]; simpl; [reflexivity|].
  destruct (Nat.eqb j k) eqn:E; simpl; [exact IH|].
  now rewrite E.
Qed.

Lemma Forall_remove_key {V : Type} (P : nat * V -> Prop) (k : nat) (l : list (nat * V)) :
  Forall P l -> Forall P (remove_key k l).
Proof.
  intros H. apply Forall_forall. intros x Hx.
  apply filter_In in Hx. destruct Hx as [Hx _].
  revert x Hx. now apply Forall_forall.
Qed.

Lemma Forall_added {V : Type} (P : nat * V -> Prop) (l : list (nat * V)) (x : nat * V) :
  Forall P l -> P x -> Forall P (l ++ [x]).
Proof. intros H Hx. apply Forall_app. split; [exact H|]. now constructor. Qed.

Lemma Forall_fresh_S {V : Type} (n : nat) (l : list (nat * V)) :
  Forall (fun t => (fst t < n)%nat) l -> Forall (fun t => (fst t < S n)%nat) l.
Proof. apply Forall_impl. intros; lia. Qed.

Lemma lookup_Forall {V : Type} (P : nat * V -> Prop) (k : nat) (l : list (nat * V)) (v : V) :
  Forall P l -> lookup k l = Some v -> P (k, v).
Proof.
  intros H Hl. apply lookup_In in Hl. revert Hl. now apply Forall_forall.
Qed.

(** ** Reachable states are consistent *)

Lemma mounted_consistent : consistent mounted.
Proof.
  split; cbn.
  - repeat constructor.
  - repeat constructor.
  - constructor.
  - constructor.
Qed.

Lemma step_consistent (ev : Event) (w w' : World) :
  consistent w -> step ev w = Some w' -> consistent w'.
Proof.
  intros [Hts Htf Hms Hmf] Hstep.
  destruct ev; unfold step in Hstep.
  - (* Drop *)
    injection Hstep as <-.
    unfold onDrop. destruct acceptedFiles as [|file rest];
      [|destruct (size file <=? 10 * 1024 * 1024)%Z]; split; assumption.
  - destruct (String.eqb (previewUrl (store w)) ""); [discriminate|].
    injection Hstep as <-. split; assumption.
  - injection Hstep as <-. split; assumption.
  - (* ClickTransform *)
    destruct (inputFile (store w)) as [file|]; [|discriminate].
    destruct (isLoading (store w)); [discriminate|].
    injection Hstep as <-. split; cbn.
    + apply Forall_added; [exact Hts|]. exact (shape_executing file _).
    + apply Forall_added; [now apply Forall_fresh_S|]. cbn. lia.
    + apply Forall_added; [exact Hms|]. reflexivity.
    + apply Forall_added; [now apply Forall_fresh_S|]. cbn. lia.
  - (* ClickCancel *)
    destruct (isLoading (store w)); [|discriminate].
    injection Hstep as <-.
    destruct (currentRunId (store w)) as [[|c run]|]; cbn; try (split; assumption).
    split; cbn; try assumption.
    + apply Forall_added; [exact Hts|]. exact (shape_cancelling (String c run)).
    + apply Forall_added; [now apply Forall_fresh_S|]. cbn. lia.
  - (* TimerFire *)
    destruct (lookup interval (timers w)) as [cb|] eqn:E; [|discriminate].
    injection Hstep as <-.
    pose proof (lookup_Forall _ _ _ _ Hms E) as Hcb. simpl in Hcb. subst cb.
    unfold progress_callback, progress_updater. cbn.
    destruct (95 <=? uploadProgress (store w))%Z; cbn.
    + split; cbn; try assumption; now apply Forall_remove_key.
    + split; assumption.
  - (* SettleExecuteWorkflow *)
    destruct (lookup task (tasks w)) as [p|] eqn:E; [|discriminate].
    pose proof (lookup_Forall _ _ _ _ Hts E) as Hp. simpl in Hp.
    destruct Hp; cbn in Hstep; try discriminate.
    injection Hstep as <-.
    destruct o as [[r|]|[|m]]; cbn;
      try (split; cbn; try assumption; now apply Forall_remove_key).
    + destruct (String.eqb (status r) "success"); cbn;
        [destruct (data r) as [d|]; cbn;
         [destruct (String.eqb (generation_status d) "success"); cbn|]|];
        try (split; cbn; try assumption; now apply Forall_remove_key).
      split; cbn; try assumption.
      * apply Forall_added; [now apply Forall_remove_key|]. exact shape_refreshing.
      * apply Forall_added; [apply Forall_fresh_S; now apply Forall_remove_key|].
        cbn. lia.
    + destruct m as [m|]; cbn; [destruct (includes "timed out" m)|];
        split; cbn; try assumption; now apply Forall_remove_key.
  - (* SettleCancelRun *)
    destruct (lookup task (tasks w)) as [p|] eqn:E; [|discriminate].
    pose proof (lookup_Forall _ _ _ _ Hts E) as Hp. simpl in Hp.
    destruct Hp; cbn in Hstep; try discriminate.
    injection Hstep as <-.
    destruct o as [[]|e]; cbn;
      split; cbn; try assumption; now apply Forall_remove_key.
  - (* SettleGetRuns *)
    destruct (lookup task (tasks w)) as [p|] eqn:E; [|discriminate].
    pose proof (lookup_Forall _ _ _ _ Hts E) as Hp. simpl in Hp.
    destruct Hp; cbn in Hstep; try discriminate;
      injection Hstep as <-;
      destruct o as [[[? [[]|]]|]|e]; cbn;
      split; cbn; try assumption; now apply Forall_remove_key.
Qed.

Lemma run_consistent (evs : list Event) (w w' : World) :
  consistent w -> run evs w = Some w' -> consistent w'.
Proof.
  revert w. induction evs as [|ev evs IH]; simpl; intros w Hw Hrun.
  - now injection Hrun as <-.
  - destruct (step ev w) as [w1|] eqn:E; [|discriminate].
    eapply IH; [|exact Hrun]. eapply step_consistent; eassumption.
Qed.

Lemma reachable_consistent (w : World) : reachable w -> consistent w.
Proof.
  intros [evs Hrun]. eapply run_consistent; [exact mounted_consistent|exact Hrun].
Qed.

Lemma reachable_step (ev : Event) (w w' : World) :
  reachable w -> step ev w = Some w' -> reachable w'.
Proof.
  intros [evs Hrun] Hstep. exists (evs ++ [ev]).
  revert Hrun. generalize mounted.
  induction evs as [|e evs IH]; simpl; intros w0 Hrun.
  - injection Hrun as ->. now rewrite Hstep.
  - destruct (step e w0); [now apply IH|discriminate].
Qed.

Lemma Some_eq {A : Type} (x y : A) : Some x = Some y -> x = y.
Proof. now intros [= ->]. Qed.

Lemma fetch_is_not_refreshing : fetchPastRuns <> generateImage_refreshing.
Proof.
  intros H.
  assert (E : forall k k' : Settled (option RunsResponse) -> Prog unit,
             AwaitGetRuns k = AwaitGetRuns k' -> k (Fulfilled None) = k' (Fulfilled None)).
  { intros k k' [= ->]. reflexivity. }
  apply E in H. cbn in H. discriminate.
Qed.

Lemma step_run_id_owned (ev : Event) (w w' : World) :
  consistent w -> run_id_owned w -> step ev w = Some w' -> run_id_owned w'.
Proof.
  intros [Hts Htf Hms _] Hown Hstep. unfold run_id_owned in *.
  destruct ev; unfold step in Hstep.
  - injection Hstep as <-. unfold onDrop.
    destruct acceptedFiles as [|file rest];
      [|destruct (size file <=? 10 * 1024 * 1024)%Z]; exact Hown.
  - destruct (String.eqb (previewUrl (store w)) ""); [discriminate|].
    injection Hstep as <-. exact Hown.
  - injection Hstep as <-. exact Hown.
  - destruct (inputFile (store w)) as [file|]; [|discriminate].
    destruct (isLoading (store w)); [discriminate|].
    injection Hstep as <-. cbn.
    destruct Hown as [Hnone|[t Ht]]; [now left|right].
    exists t. now apply lookup_kept.
  - destruct (isLoading (store w)); [|discriminate].
    injection Hstep as <-.
    destruct (currentRunId (store w)) as [[|c run]|] eqn:Hid; cbn;
      rewrite ?Hid; try exact Hown.
    destruct Hown as [Hnone|[t Ht]]; [discriminate|right].
    exists t. now apply lookup_kept.
  - destruct (lookup interval (timers w)) as [cb|] eqn:E; [|discriminate].
    injection Hstep as <-.
    pose proof (lookup_Forall _ _ _ _ Hms E) as Hcb. simpl in Hcb. subst cb.
    unfold progress_callback, progress_updater. cbn.
    destruct (95 <=? uploadProgress (store w))%Z; exact Hown.
  - destruct (lookup task (tasks w)) as [p|] eqn:E; [|discriminate].
    pose proof (lookup_Forall _ _ _ _ Hts E) as Hp. simpl in Hp.
    destruct Hp; cbn in Hstep; try discriminate.
    injection Hstep as <-.
    destruct o as [[r|]|[|m]]; cbn; try now left.
    + destruct (String.eqb (status r) "success"); cbn;
        [destruct (data r) as [d|]; cbn;
         [destruct (String.eqb (generation_status d) "success"); cbn|]|];
        try now left.
      right. exists (next_task w). apply lookup_added.
      now apply Forall_remove_key.
    + destruct m as [m|]; cbn; [destruct (includes "timed out" m)|]; now left.
  - destruct (lookup task (tasks w)) as [p|] eqn:E; [|discriminate].
    pose proof (lookup_Forall _ _ _ _ Hts E) as Hp. simpl in Hp.
    destruct Hp; cbn in Hstep; try discriminate.
    injection Hstep as <-.
    destruct o as [[]|e]; cbn; [now left|].
    destruct Hown as [Hnone|[t Ht]]; [now left|right].
    exists t. rewrite lookup_remove_other; [exact Ht|].
    intros ->. rewrite E in Ht. discriminate.
  - destruct (lookup task (tasks w)) as [p|] eqn:E; [|discriminate].
    pose proof (lookup_Forall _ _ _ _ Hts E) as Hp. simpl in Hp.
    destruct Hp; cbn in Hstep; try discriminate; injection Hstep as <-.
    + assert (Hkeep : currentRunId (store w) = None \/
                      exists t, lookup t (remove_key task (tasks w))
                                = Some generateImage_refreshing).
      { destruct Hown as [Hnone|[t Ht]]; [now left|right].
        exists t. rewrite lookup_remove_other; [exact Ht|].
        intros ->. rewrite E in Ht. apply Some_eq in Ht.
        now apply fetch_is_not_refreshing. }
      destruct o as [[[? [[]|]]|]|e]; cbn; exact Hkeep.
    + destruct o as [[[? [[]|]]|]|e]; cbn; now left.
Qed.

Lemma run_invariants (evs : list Event) (w w' : World) :
  consistent w -> run_id_owned w -> run evs w = Some w' ->
  consistent w' /\ run_id_owned w'.
Proof.
  revert w. induction evs as [|ev evs IH]; simpl; intros w Hw Ho Hrun.
  - injection Hrun as <-. now split.
  - destruct (step ev w) as [w1|] eqn:E; [|discriminate].
    apply (IH w1); [eapply step_consistent|eapply step_run_id_owned|]; eassumption.
Qed.

Lemma reachable_run_id_owned (w : World) : reachable w -> run_id_owned w.
Proof.
  intros [evs Hrun].
  apply (run_invariants evs mounted w mounted_consistent); [now left|exact Hrun].
Qed.

Lemma quiescent_no_run_id (w : World) :
  reachable w -> quiescent w -> currentRunId (store w) = None.
Proof.
  intros Hr Hq. destruct (reachable_run_id_owned w Hr) as [H|[t Ht]]; [exact H|].
  pose proof (lookup_Forall _ _ _ _ Hq Ht) as Hp. simpl in Hp.
  symmetry in Hp. now apply fetch_is_not_refreshing in Hp.
Qed.

(** ** Submitting *)

Lemma get_runs_requests_app (l l' : list Effect) :
  get_runs_requests (l ++ l') = (get_runs_requests l + get_runs_requests l')%nat.
Proof. unfold get_runs_requests. now rewrite filter_app, length_app. Qed.

(** What a click on the button does, when it is enabled. *)
Lemma click_transform (w : World) (file : File) :
  inputFile (store w) = Some file ->
  isLoading (store w) = false ->
  exists w1,
    step ClickTransform w = Some w1 /\
    isLoading (store w1) = true /\
    uploadProgress (store w1) = 0%Z /\
    outputImageUrl (store w1) = "" /\
    currentRunId (store w1) = currentRunId (store w) /\
    timers w1 = timers w ++ [(next_timer w, progress_callback (next_timer w))] /\
    tasks w1 = tasks w ++ [(next_task w,
                            generateImage_suspended file (promptText (store w)))] /\
    next_task w1 = S (next_task w) /\
    log w1 = log w ++ [IntervalSet (next_timer w) 500;
                       ExecuteWorkflowRequest workflowId
                         (mkInputs file (promptText (store w)))].
Proof.
  intros Hfile Hload. unfold step. rewrite Hfile, Hload.
  eexists. split; [reflexivity|]. cbn. rewrite <- app_assoc.
  repeat split; reflexivity.
Qed.

(** Every result that is not a full success, the rejection with
    [undefined] or [null] apart, ends in the [catch] block with one of the
    two messages, and in the [finally] block. *)
Lemma generateImage_failure (w : World) (t : TaskId) (file : File) (prompt : string)
    (o : Settled (option FlowscaleResponse)) :
  lookup t (tasks w) = Some (generateImage_suspended file prompt) ->
  full_success o = false ->
  o <> Rejected ThrownNullish ->
  exists w' e msg,
    step (SettleExecuteWorkflow t o) w = Some w' /\
    log w' = log w ++ [ConsoleError "Error processing image:" e; Alerted msg] /\
    (msg = timeout_message \/ msg = generic_message) /\
    ((forall m, o = Rejected (ThrownValue (Some m)) -> includes "timed out" m = false) ->
     msg = generic_message) /\
    isLoading (store w') = false /\
    currentRunId (store w') = None /\
    uploadProgress (store w') = uploadProgress (store w) /\
    outputImageUrl (store w') = outputImageUrl (store w) /\
    pastRuns (store w') = pastRuns (store w) /\
    timers w' = timers w /\
    tasks w' = remove_key t (tasks w).
Proof.
  intros Ht Hfail Hnn. unfold step. rewrite Ht. clear Ht. cbn.
  destruct o as [[r|]|[|[m|]]]; cbn in Hfail |- *.
  - destruct (String.eqb (status r) "success"); cbn in Hfail |- *;
      [destruct (data r) as [d|]; cbn in Hfail |- *;
       [destruct (String.eqb (generation_status d) "success"); [discriminate|]|]|];
      cbn; do 3 eexists; (split; [reflexivity|]); cbn; rewrite <- app_assoc;
      repeat split; auto.
  - do 3 eexists. split; [reflexivity|]. cbn. rewrite <- app_assoc.
    repeat split; auto.
  - congruence.
  - destruct (includes "timed out" m) eqn:Hm; cbn;
      do 3 eexists; (split; [reflexivity|]); cbn; rewrite <- app_assoc;
      repeat split; auto.
    intros H. specialize (H m eq_refl). congruence.
  - do 3 eexists. split; [reflexivity|]. cbn. rewrite <- app_assoc.
    repeat split; auto.
Qed.

(** A full success, up to the [await] of [fetchPastRuns]. *)
Lemma generateImage_success_step (w : World) (t : TaskId) (file : File) (prompt : string)
    (r : FlowscaleResponse) (d : FlowscaleData) :
  lookup t (tasks w) = Some (generateImage_suspended file prompt) ->
  status r = "success" ->
  data r = Some d ->
  generation_status d = "success" ->
  exists w1,
    step (SettleExecuteWorkflow t (Fulfilled (Some r))) w = Some w1 /\
    store w1 = mkStore (inputFile (store w)) (promptText (store w)) (isLoading (store w))
                       100%Z (download_url d) (Some (runId r))
                       (pastRuns (store w)) (previewUrl (store w)) /\
    timers w1 = timers w /\
    tasks w1 = remove_key t (tasks w) ++ [(next_task w, generateImage_refreshing)] /\
    next_task w1 = S (next_task w) /\
    log w1 = log w ++ [GetRunsRequest].
Proof.
  intros Ht Hs Hd Hg. unfold step. rewrite Ht. cbn. rewrite Hs, Hd. cbn. rewrite Hg. cbn.
  eexists. split; [reflexivity|]. cbn. repeat split; reflexivity.
Qed.

(** The end of a successful [generateImage]: [fetchPastRuns] settles and the
    [finally] block runs. *)
Lemma generateImage_refreshed (w : World) (t : TaskId) (o : Settled (option RunsResponse)) :
  lookup t (tasks w) = Some generateImage_refreshing ->
  exists w' l,
    step (SettleGetRuns t o) w = Some w' /\
    log w' = log w ++ l /\
    (l = [] \/ exists e, l = [ConsoleError "Error fetching past runs:" e]) /\
    isLoading (store w') = false /\
    currentRunId (store w') = None /\
    uploadProgress (store w') = uploadProgress (store w) /\
    outputImageUrl (store w') = outputImageUrl (store w) /\
    (forall resp rd, o = Fulfilled (Some resp) -> runs_response_data resp = Some rd ->
                     pastRuns (store w') = runs rd) /\
    timers w' = timers w /\
    tasks w' = remove_key t (tasks w).
Proof.
  intros Ht. unfold step. rewrite Ht. cbn.
  destruct o as [[[st [rd|]]|]|e]; cbn.
  - exists (perform (setCurrentRunId None)
             (perform (setIsLoading false)
                (perform (setPastRuns (runs rd)) (finish_task t w)))), [].
    cbn. rewrite app_nil_r. repeat split; auto.
    intros resp rd' [= <-]. cbn. now intros [= <-].
  - do 2 eexists. split; [reflexivity|]. cbn. repeat split; eauto.
    intros resp rd' [= <-]. cbn. discriminate.
  - do 2 eexists. split; [reflexivity|]. cbn. repeat split; eauto. discriminate.
  - do 2 eexists. split; [reflexivity|]. cbn. repeat split; eauto. discriminate.
Qed.

(** C6: with no input file selected, [generateImage] only shows the alert
    that asks for an image (the invalid-input signal): it sends no request,
    suspends no handler, sets no interval and changes no state cell; the
    button that calls it is disabled in that state. *)
Theorem generateImage_without_file (w : World) :
  inputFile (store w) = None ->
  let w' := exec (generateImage (inputFile (store w)) (promptText (store w))) w in
  log w' = log w ++ [Alerted "Please select an image first"] /\
  store w' = store w /\
  tasks w' = tasks w /\
  timers w' = timers w /\
  step ClickTransform w = None.
Proof.
  intros H. unfold step. rewrite H. cbn. repeat split; reflexivity.
Qed.

(** C7: when [currentRunId] is null, [handleCancel] does nothing at all: the
    state, the pending requests and the log of effects are unchanged, so no
    [cancelRun] call is made. *)
Theorem handleCancel_without_run (w : World) :
  currentRunId (store w) = None ->
  exec (handleCancel (currentRunId (store w))) w = w /\
  forall w', step ClickCancel w = Some w' -> w' = w.
Proof.
  intros H. unfold step. rewrite H. cbn. split; [reflexivity|].
  intros w'. destruct (isLoading (store w)); congruence.
Qed.

(** C9: when [executeWorkflowAsync] rejects with an error whose message
    contains "timed out", [generateImage] logs the error, shows the timeout
    message, and clears [isLoading] and [currentRunId]; that message differs
    from the generic one, which every other failure that shows a message
    gets. *)
Theorem generateImage_timeout (w : World) (t : TaskId) (file : File) (prompt m : string) :
  lookup t (tasks w) = Some (generateImage_suspended file prompt) ->
  includes "timed out" m = true ->
  (exists w',
     step (SettleExecuteWorkflow t (Rejected (Error m))) w = Some w' /\
     log w' = log w ++ [ConsoleError "Error processing image:" (Error m);
                        Alerted timeout_message] /\
     isLoading (store w') = false /\
     currentRunId (store w') = None) /\
  timeout_message <> generic_message /\
  (forall o,
     full_success o = false ->
     o <> Rejected ThrownNullish ->
     (forall m', o = Rejected (ThrownValue (Some m')) -> includes "timed out" m' = false) ->
     exists w' e,
       step (SettleExecuteWorkflow t o) w = Some w' /\
       log w' = log w ++ [ConsoleError "Error processing image:" e;
                          Alerted generic_message]).
Proof.
  intros Ht Hm. split; [|split].
  - unfold step. rewrite Ht. cbn. rewrite Hm. cbn.
    eexists. split; [reflexivity|]. cbn. rewrite <- app_assoc.
    repeat split; reflexivity.
  - discriminate.
  - intros o Hf Hnn Hnt.
    destruct (generateImage_failure w t file prompt o Ht Hf Hnn)
      as (w' & e & msg & Hstep & Hlog & _ & Hgen & _).
    exists w', e. split; [exact Hstep|]. now rewrite <- (Hgen Hnt).
Qed.

(** C5: when [executeWorkflowAsync] resolves with status "success" and
    generation status "success", [generateImage] sets [uploadProgress] to
    100, stores the download url as [outputImageUrl] and requests the past
    runs once; however that request settles, the handler then ends with
    [isLoading] false and [currentRunId] null, the progress and the url
    kept, one more [getRuns] request in the log than before, and nothing
    shown or thrown; the runs of a well-formed answer become [pastRuns]. *)
Theorem generateImage_success (w : World) (t : TaskId) (file : File) (prompt : string)
    (r : FlowscaleResponse) (d : FlowscaleData) :
  reachable w ->
  lookup t (tasks w) = Some (generateImage_suspended file prompt) ->
  status r = "success" ->
  data r = Some d ->
  generation_status d = "success" ->
  exists w1,
    step (SettleExecuteWorkflow t (Fulfilled (Some r))) w = Some w1 /\
    uploadProgress (store w1) = 100%Z /\
    outputImageUrl (store w1) = download_url d /\
    currentRunId (store w1) = Some (runId r) /\
    log w1 = log w ++ [GetRunsRequest] /\
    forall o, exists w2 l,
      step (SettleGetRuns (next_task w) o) w1 = Some w2 /\
      isLoading (store w2) = false /\
      currentRunId (store w2) = None /\
      uploadProgress (store w2) = 100%Z /\
      outputImageUrl (store w2) = download_url d /\
      log w2 = log w ++ GetRunsRequest :: l /\
      (l = [] \/ exists e, l = [ConsoleError "Error fetching past runs:" e]) /\
      get_runs_requests (log w2) = S (get_runs_requests (log w)) /\
      (forall resp rd, o = Fulfilled (Some resp) -> runs_response_data resp = Some rd ->
                       pastRuns (store w2) = runs rd) /\
      lookup t (tasks w2) = None /\
      lookup (next_task w) (tasks w2) = None.
Proof.
  intros Hr Ht Hs Hd Hg.
  destruct (generateImage_success_step w t file prompt r d Ht Hs Hd Hg)
    as (w1 & Hstep & Hstore & Htimers & Htasks & Hnext & Hlog).
  pose proof (reachable_consistent w Hr) as [_ Hfresh _ _].
  assert (Hne : t <> next_task w).
  { pose proof (lookup_Forall _ _ _ _ Hfresh Ht) as Hlt. simpl in Hlt. lia. }
  exists w1. rewrite Hstore. cbn. repeat split; auto.
  intros o.
  assert (Hpending : lookup (next_task w) (tasks w1) = Some generateImage_refreshing).
  { rewrite Htasks. apply lookup_added. now apply Forall_remove_key. }
  destruct (generateImage_refreshed w1 (next_task w) o Hpending)
    as (w2 & l & Hstep2 & Hlog2 & Hl & Hload & Hid & Hprog & Hurl & Hruns & _ & Htasks2).
  exists w2, l. rewrite Hstore in Hprog, Hurl. cbn in Hprog, Hurl.
  repeat split; auto.
  - rewrite Hlog2, Hlog, <- app_assoc. reflexivity.
  - rewrite Hlog2, Hlog, !get_runs_requests_app.
    destruct Hl as [->|[e ->]]; cbn; lia.
  - rewrite Htasks2, Htasks, lookup_remove_other by exact Hne.
    rewrite lookup_app, lookup_remove_same. cbn.
    destruct (Nat.eqb_spec (next_task w) t); congruence.
  - rewrite Htasks2. apply lookup_remove_same.
Qed.

(** ** Cancelling *)

(** C3, as the code has it: when [cancelRun] throws, [handleCancel] only
    logs the error; no state cell changes, so [isLoading], [currentRunId]
    and [uploadProgress] keep their values.  They are cleared when
    [cancelRun] resolves. *)
Theorem handleCancel_settled (w : World) (t : TaskId) (run : string) (e : JsThrown) :
  lookup t (tasks w) = Some (handleCancel_suspended run) ->
  (exists w',
     step (SettleCancelRun t (Rejected e)) w = Some w' /\
     store w' = store w /\
     timers w' = timers w /\
     tasks w' = remove_key t (tasks w) /\
     log w' = log w ++ [ConsoleError "Error cancelling run:" e]) /\
  (exists w',
     step (SettleCancelRun t (Fulfilled tt)) w = Some w' /\
     isLoading (store w') = false /\
     currentRunId (store w') = None /\
     uploadProgress (store w') = 0%Z /\
     timers w' = timers w /\
     tasks w' = remove_key t (tasks w) /\
     log w' = log w).
Proof.
  intros Ht. unfold step. rewrite Ht. cbn. split.
  - eexists. split; [reflexivity|]. cbn. destruct (store w). repeat split; reflexivity.
  - eexists. split; [reflexivity|]. cbn. repeat split; reflexivity.
Qed.

(** ** The ticker *)

(** One firing of the interval. *)
Lemma timer_fire (w : World) (i : TimerId) :
  lookup i (timers w) = Some (progress_callback i) ->
  exists w',
    step (TimerFire i) w = Some w' /\
    (if (95 <=? uploadProgress (store w))%Z
     then timers w' = remove_key i (timers w) /\
          uploadProgress (store w') = uploadProgress (store w)
     else timers w' = timers w /\
          uploadProgress (store w') = (uploadProgress (store w) + 5)%Z) /\
    isLoading (store w') = isLoading (store w) /\
    currentRunId (store w') = currentRunId (store w) /\
    outputImageUrl (store w') = outputImageUrl (store w) /\
    tasks w' = tasks w /\
    next_task w' = next_task w /\
    log w' = log w.
Proof.
  intros Hi. unfold step. rewrite Hi.
  unfold progress_callback, progress_updater. cbn.
  destruct (95 <=? uploadProgress (store w))%Z; cbn;
    (eexists; split; [reflexivity|]); cbn; repeat split; reflexivity.
Qed.

(** C4, as the code has it: the interval is cleared only by its own
    callback, at a firing that finds [uploadProgress] at 95 or more, which
    leaves the progress as it is; below 95 a firing adds 5.  A click on the
    button sets one more interval, and no other event, in particular no
    settling of [executeWorkflowAsync], [getRuns] or [cancelRun], touches
    the intervals. *)
Theorem intervals_after_step (w w' : World) (ev : Event) :
  reachable w ->
  step ev w = Some w' ->
  match ev with
  | TimerFire i =>
      if (95 <=? uploadProgress (store w))%Z
      then timers w' = remove_key i (timers w) /\
           uploadProgress (store w') = uploadProgress (store w)
      else timers w' = timers w /\
           uploadProgress (store w') = (uploadProgress (store w) + 5)%Z
  | ClickTransform =>
      timers w' = timers w ++ [(next_timer w, progress_callback (next_timer w))]
  | _ => timers w' = timers w
  end.
Proof.
  intros Hr Hstep. pose proof (reachable_consistent w Hr) as [Hts _ Hms _].
  destruct ev; unfold step in Hstep.
  - injection Hstep as <-. unfold onDrop.
    destruct acceptedFiles as [|file rest];
      [|destruct (size file <=? 10 * 1024 * 1024)%Z]; reflexivity.
  - destruct (String.eqb (previewUrl (store w)) ""); [discriminate|].
    now injection Hstep as <-.
  - now injection Hstep as <-.
  - destruct (inputFile (store w)) as [file|]; [|discriminate].
    destruct (isLoading (store w)); [discriminate|].
    now injection Hstep as <-.
  - destruct (isLoading (store w)); [|discriminate].
    injection Hstep as <-.
    destruct (currentRunId (store w)) as [[|c run]|]; reflexivity.
  - destruct (lookup interval (timers w)) as [cb|] eqn:E; [|discriminate].
    pose proof (lookup_Forall _ _ _ _ Hms E) as Hcb. simpl in Hcb. subst cb.
    destruct (timer_fire w interval E) as (w1 & Hstep1 & Hif & _).
    unfold step in Hstep1. rewrite E in Hstep1.
    assert (w1 = w') by congruence. subst w1. exact Hif.
  - destruct (lookup task (tasks w)) as [p|] eqn:E; [|discriminate].
    pose proof (lookup_Forall _ _ _ _ Hts E) as Hp. simpl in Hp.
    destruct Hp; cbn in Hstep; try discriminate.
    injection Hstep as <-.
    destruct o as [[r|]|[|m]]; cbn; try reflexivity.
    + destruct (String.eqb (status r) "success"); cbn;
        [destruct (data r) as [d|]; cbn;
         [destruct (String.eqb (generation_status d) "success"); cbn|]|];
        reflexivity.
    + destruct m as [m|]; cbn; [destruct (includes "timed out" m)|]; reflexivity.
  - destruct (lookup task (tasks w)) as [p|] eqn:E; [|discriminate].
    pose proof (lookup_Forall _ _ _ _ Hts E) as Hp. simpl in Hp.
    destruct Hp; cbn in Hstep; try discriminate.
    injection Hstep as <-.
    destruct o as [[]|e]; reflexivity.
  - destruct (lookup task (tasks w)) as [p|] eqn:E; [|discriminate].
    pose proof (lookup_Forall _ _ _ _ Hts E) as Hp. simpl in Hp.
    destruct Hp; cbn in Hstep; try discriminate; injection Hstep as <-;
      destruct o as [[[? [[]|]]|]|e]; reflexivity.
Qed.








(** ** A run in flight *)

Lemma suspended_is_not_fetch (file : File) (prompt : string) :
  generateImage_suspended file prompt <> fetchPastRuns.
Proof. discriminate. Qed.

(** While the call is in flight nothing but its coming back ends the
    flight. *)
Lemma step_in_flight (t : TaskId) (ev : Event) (w w' : World) :
  consistent w -> in_flight t w -> is_settle_execute ev = false ->
  step ev w = Some w' -> in_flight t w'.
Proof.
  intros [Hts _ Hms _] (Hload & Hid & (file & prompt & Ht) & Hall) Hev Hstep.
  assert (Hsame : forall w0 : World,
            isLoading (store w0) = isLoading (store w) ->
            currentRunId (store w0) = currentRunId (store w) ->
            tasks w0 = tasks w -> in_flight t w0).
  { intros w0 H1 H2 H3. unfold in_flight. rewrite H1, H2, H3. eauto 10. }
  destruct ev; try discriminate; unfold step in Hstep.
  - injection Hstep as <-. unfold onDrop.
    destruct acceptedFiles as [|file' rest];
      [|destruct (size file' <=? 10 * 1024 * 1024)%Z]; now apply Hsame.
  - destruct (String.eqb (previewUrl (store w)) ""); [discriminate|].
    injection Hstep as <-. now apply Hsame.
  - injection Hstep as <-. now apply Hsame.
  - rewrite Hload in Hstep. destruct (inputFile (store w)); discriminate.
  - rewrite Hload, Hid in Hstep. injection Hstep as <-. now apply Hsame.
  - destruct (lookup interval (timers w)) as [cb|] eqn:E; [|discriminate].
    pose proof (lookup_Forall _ _ _ _ Hms E) as Hcb. simpl in Hcb. subst cb.
    destruct (timer_fire w interval E)
      as (w1 & Hstep1 & _ & Hl1 & Hid1 & _ & Htasks1 & _).
    unfold step in Hstep1. rewrite E in Hstep1.
    assert (w1 = w') by congruence. subst w1. now apply Hsame.
  - destruct (lookup task (tasks w)) as [p|] eqn:E; [|discriminate].
    pose proof (lookup_Forall _ _ _ _ Hall E) as Hp. simpl in Hp.
    destruct Hp as [->| ->].
    + rewrite Ht in E. apply Some_eq in E. subst p. discriminate.
    + discriminate.
  - destruct (lookup task (tasks w)) as [p|] eqn:E; [|discriminate].
    pose proof (lookup_Forall _ _ _ _ Hall E) as Hp. simpl in Hp.
    destruct Hp as [->| ->].
    + rewrite Ht in E. apply Some_eq in E. subst p. discriminate.
    + assert (Hne : t <> task).
      { intros ->. rewrite Ht in E. apply Some_eq in E.
        now apply suspended_is_not_fetch in E. }
      assert (Hkeep : lookup t (remove_key task (tasks w))
                      = Some (generateImage_suspended file prompt))
        by now rewrite lookup_remove_other.
      pose proof (Forall_remove_key _ task _ Hall) as Hall'.
      assert (Hgone : forall w0 : World,
                isLoading (store w0) = isLoading (store w) ->
                currentRunId (store w0) = currentRunId (store w) ->
                tasks w0 = remove_key task (tasks w) -> in_flight t w0).
      { intros w0 H1 H2 H3. unfold in_flight. rewrite H1, H2, H3. eauto 10. }
      cbn in Hstep. injection Hstep as <-.
      destruct o as [[[? [[]|]]|]|e]; now apply Hgone.
Qed.

Lemma run_in_flight (t : TaskId) (evs : list Event) (w w' : World) :
  consistent w -> in_flight t w -> none_settles_execute evs ->
  run evs w = Some w' -> consistent w' /\ in_flight t w'.
Proof.
  unfold none_settles_execute.
  revert w. induction evs as [|ev evs IH]; simpl; intros w Hc Hf Hevs Hrun.
  - injection Hrun as <-. now split.
  - apply andb_prop in Hevs. destruct Hevs as [Hev Hevs].
    apply negb_true_iff in Hev.
    destruct (step ev w) as [w1|] eqn:E; [|discriminate].
    apply (IH w1); try assumption.
    + eapply step_consistent; eassumption.
    + eapply step_in_flight; eassumption.
Qed.

(** The [finally] block of [generateImage] runs on every result that is not
    a full success. *)
Lemma generateImage_unsuccessful (w : World) (t : TaskId) (file : File) (prompt : string)
    (o : Settled (option FlowscaleResponse)) :
  lookup t (tasks w) = Some (generateImage_suspended file prompt) ->
  full_success o = false ->
  exists w',
    step (SettleExecuteWorkflow t o) w = Some w' /\
    isLoading (store w') = false /\
    currentRunId (store w') = None /\
    tasks w' = remove_key t (tasks w).
Proof.
  intros Ht Hfail.
  destruct o as [x|[|m]].
  - apply (generateImage_failure w t file prompt) in Hfail; [|exact Ht|discriminate].
    destruct Hfail as (w' & _ & _ & Hstep & _ & _ & _ & Hl & Hid & _ & _ & _ & _ & Hts).
    now exists w'.
  - unfold step. rewrite Ht. cbn. eexists. split; [reflexivity|]. now cbn.
  - apply (generateImage_failure w t file prompt) in Hfail; [|exact Ht|discriminate].
    destruct Hfail as (w' & _ & _ & Hstep & _ & _ & _ & Hl & Hid & _ & _ & _ & _ & Hts).
    now exists w'.
Qed.

(** C10: for a submission made when no other submission or cancellation is
    under way, [currentRunId] is null for as long as the call of
    [executeWorkflowAsync] is in flight; a click on Cancel in that time
    changes nothing and sends no request.  The run id is set when the call
    has resolved, and it is null again when [generateImage] ends: at once
    when the result is not a full success, and after [fetchPastRuns] has
    settled when it is. *)
Theorem run_id_null_in_flight (w w1 : World) (evs : list Event) (w2 : World) :
  reachable w ->
  quiescent w ->
  step ClickTransform w = Some w1 ->
  none_settles_execute evs ->
  run evs w1 = Some w2 ->
  currentRunId (store w1) = None /\
  currentRunId (store w2) = None /\
  (exists file prompt,
     lookup (next_task w) (tasks w2) = Some (generateImage_suspended file prompt)) /\
  step ClickCancel w2 = Some w2 /\
  forall o, exists w3,
    step (SettleExecuteWorkflow (next_task w) o) w2 = Some w3 /\
    (full_success o = false -> currentRunId (store w3) = None) /\
    (full_success o = true ->
     exists r, o = Fulfilled (Some r) /\
               currentRunId (store w3) = Some (runId r) /\
               forall o', exists w4,
                 step (SettleGetRuns (next_task w2) o') w3 = Some w4 /\
                 currentRunId (store w4) = None).
Proof.
  intros Hr Hq Hstep Hevs Hrun.
  pose proof (reachable_consistent w Hr) as Hc.
  pose proof (step_consistent _ _ _ Hc Hstep) as Hc1.
  pose proof (quiescent_no_run_id w Hr Hq) as Hid.
  assert (Hclick : exists file, inputFile (store w) = Some file /\
                                isLoading (store w) = false).
  { unfold step in Hstep. destruct (inputFile (store w)) as [file|]; [|discriminate].
    destruct (isLoading (store w)); [discriminate|]. now exists file. }
  destruct Hclick as (file & Hfile & Hload).
  destruct (click_transform w file Hfile Hload)
    as (w1' & Hstep' & Hl1 & _ & _ & Hid1 & _ & Htasks1 & _).
  assert (w1' = w1) by congruence. subst w1'.
  assert (Hfly : in_flight (next_task w) w1).
  { split; [exact Hl1|]. split; [congruence|]. split.
    - exists file, (promptText (store w)). rewrite Htasks1.
      apply lookup_added. now destruct Hc.
    - rewrite Htasks1. apply Forall_added; [|now left].
      revert Hq. apply Forall_impl. intros x Hx. now right. }
  destruct (run_in_flight _ evs w1 w2 Hc1 Hfly Hevs Hrun)
    as (Hc2 & Hl2 & Hid2 & (file2 & prompt2 & Ht2) & Hall2).
  split; [congruence|]. split; [exact Hid2|]. split; [eauto|]. split.
  { unfold step. now rewrite Hl2, Hid2. }
  intros o. destruct (full_success o) eqn:Hfs.
  - destruct o as [[r|]|e]; try discriminate.
    cbn in Hfs. apply andb_prop in Hfs. destruct Hfs as [Hs Hd].
    destruct (data r) as [d|] eqn:Hdata; [|discriminate].
    apply String.eqb_eq in Hs, Hd.
    destruct (generateImage_success_step w2 _ file2 prompt2 r d Ht2 Hs Hdata Hd)
      as (w3 & Hstep3 & Hstore3 & _ & Htasks3 & _).
    exists w3. split; [exact Hstep3|]. split; [discriminate|].
    intros _. exists r. split; [reflexivity|]. split; [now rewrite Hstore3|].
    intros o'.
    assert (Hpending : lookup (next_task w2) (tasks w3) = Some generateImage_refreshing).
    { rewrite Htasks3. apply lookup_added. apply Forall_remove_key. now destruct Hc2. }
    destruct (generateImage_refreshed w3 _ o' Hpending)
      as (w4 & l & Hstep4 & _ & _ & _ & Hid4 & _).
    now exists w4.
  - destruct (generateImage_unsuccessful w2 _ file2 prompt2 o Ht2 Hfs)
      as (w3 & Hstep3 & _ & Hid3 & _).
    exists w3. split; [exact Hstep3|]. split; [now intros _|discriminate].
Qed.

(** *** Cancel during the flight *)

(** A [cancelRun] request is sent by a click on Cancel that finds a run id,
    and by nothing else. *)
Lemma step_cancel_requests (ev : Event) (w w' : World) :
  consistent w -> step ev w = Some w' ->
  (ev = ClickCancel -> truthy (currentRunId (store w)) = false) ->
  filter is_cancel_request (log w') = filter is_cancel_request (log w).
Proof.
  intros [Hts _ Hms _] Hstep Hcancel.
  assert (Hadd : forall l : list Effect,
            filter is_cancel_request l = [] ->
            filter is_cancel_request (log w ++ l) = filter is_cancel_request (log w)).
  { intros l Hl. now rewrite filter_app, Hl, app_nil_r. }
  destruct ev; unfold step in Hstep.
  - injection Hstep as <-. unfold onDrop.
    destruct acceptedFiles as [|file rest];
      [|destruct (size file <=? 10 * 1024 * 1024)%Z]; cbn;
      first [reflexivity|now apply Hadd].
  - destruct (String.eqb (previewUrl (store w)) ""); [discriminate|].
    now injection Hstep as <-.
  - now injection Hstep as <-.
  - destruct (inputFile (store w)) as [file|]; [|discriminate].
    destruct (isLoading (store w)); [discriminate|].
    injection Hstep as <-. cbn. rewrite <- app_assoc. now apply Hadd.
  - destruct (isLoading (store w)); [|discriminate].
    injection Hstep as <-. specialize (Hcancel eq_refl).
    destruct (currentRunId (store w)) as [[|c run]|];
      [reflexivity|discriminate|reflexivity].
  - destruct (lookup interval (timers w)) as [cb|] eqn:E; [|discriminate].
    injection Hstep as <-.
    pose proof (lookup_Forall _ _ _ _ Hms E) as Hcb. simpl in Hcb. subst cb.
    unfold progress_callback, progress_updater. cbn.
    destruct (95 <=? uploadProgress (store w))%Z; reflexivity.
  - destruct (lookup task (tasks w)) as [p|] eqn:E; [|discriminate].
    pose proof (lookup_Forall _ _ _ _ Hts E) as Hp. simpl in Hp.
    destruct Hp; cbn in Hstep; try discriminate.
    injection Hstep as <-.
    destruct o as [[r|]|[|m]]; cbn; rewrite <- ?app_assoc; try now apply Hadd.
    + destruct (String.eqb (status r) "success"); cbn;
        [destruct (data r) as [d|]; cbn;
         [destruct (String.eqb (generation_status d) "success"); cbn|]|];
        rewrite <- ?app_assoc; now apply Hadd.
    + destruct m as [m|]; cbn; [destruct (includes "timed out" m)|];
        cbn; rewrite <- ?app_assoc; now apply Hadd.
  - destruct (lookup task (tasks w)) as [p|] eqn:E; [|discriminate].
    pose proof (lookup_Forall _ _ _ _ Hts E) as Hp. simpl in Hp.
    destruct Hp; cbn in Hstep; try discriminate.
    injection Hstep as <-.
    destruct o as [[]|e]; cbn; first [reflexivity|now apply Hadd].
  - destruct (lookup task (tasks w)) as [p|] eqn:E; [|discriminate].
    pose proof (lookup_Forall _ _ _ _ Hts E) as Hp. simpl in Hp.
    destruct Hp; cbn in Hstep; try discriminate; injection Hstep as <-;
      destruct o as [[[? [[]|]]|]|e]; cbn; rewrite <- ?app_assoc;
      first [reflexivity|now apply Hadd].
Qed.

Lemma run_in_flight_cancel_requests (t : TaskId) (evs : list Event) (w w' : World) :
  consistent w -> in_flight t w -> none_settles_execute evs ->
  run evs w = Some w' ->
  filter is_cancel_request (log w') = filter is_cancel_request (log w).
Proof.
  unfold none_settles_execute.
  revert w. induction evs as [|ev evs IH]; cbn [run forallb]; intros w Hc Hf Hevs Hrun.
  - now injection Hrun as <-.
  - apply andb_prop in Hevs. destruct Hevs as [Hev Hevs].
    apply negb_true_iff in Hev.
    destruct (step ev w) as [w1|] eqn:E; [|discriminate].
    rewrite (IH w1); try assumption.
    + apply (step_cancel_requests ev w w1 Hc E).
      intros _. destruct Hf as (_ & Hid & _). now rewrite Hid.
    + eapply step_consistent; eassumption.
    + eapply step_in_flight; eassumption.
Qed.

(** C2, as the code has it: for a submission made when no other submission
    or cancellation is under way, [currentRunId] is null for as long as the
    call of [executeWorkflowAsync] is in flight, so the clicks on Cancel in
    that time change nothing and send no [cancelRun] request; a successful
    result that arrives afterwards is applied without any check of the run
    id: [uploadProgress] becomes 100, the download url becomes
    [outputImageUrl], the run id of the result becomes [currentRunId], and
    the past runs are requested. *)
Theorem cancel_in_flight_then_success (w w1 : World) (evs : list Event) (w2 : World)
    (r : FlowscaleResponse) (d : FlowscaleData) :
  reachable w ->
  quiescent w ->
  step ClickTransform w = Some w1 ->
  none_settles_execute evs ->
  run evs w1 = Some w2 ->
  status r = "success" ->
  data r = Some d ->
  generation_status d = "success" ->
  currentRunId (store w2) = None /\
  step ClickCancel w2 = Some w2 /\
  filter is_cancel_request (log w2) = filter is_cancel_request (log w) /\
  exists w3,
    step (SettleExecuteWorkflow (next_task w) (Fulfilled (Some r))) w2 = Some w3 /\
    uploadProgress (store w3) = 100%Z /\
    outputImageUrl (store w3) = download_url d /\
    currentRunId (store w3) = Some (runId r) /\
    isLoading (store w3) = true /\
    log w3 = log w2 ++ [GetRunsRequest].
Proof.
  intros Hr Hq Hstep Hevs Hrun Hs Hd Hg.
  pose proof (reachable_consistent w Hr) as Hc.
  pose proof (step_consistent _ _ _ Hc Hstep) as Hc1.
  pose proof (quiescent_no_run_id w Hr Hq) as Hid.
  assert (Hclick : exists file, inputFile (store w) = Some file /\
                                isLoading (store w) = false).
  { unfold step in Hstep. destruct (inputFile (store w)) as [file|]; [|discriminate].
    destruct (isLoading (store w)); [discriminate|]. now exists file. }
  destruct Hclick as (file & Hfile & Hload).
  destruct (click_transform w file Hfile Hload)
    as (w1' & Hstep' & Hl1 & _ & _ & Hid1 & _ & Htasks1 & _ & Hlog1).
  assert (w1' = w1) by congruence. subst w1'.
  assert (Hfly : in_flight (next_task w) w1).
  { split; [exact Hl1|]. split; [congruence|]. split.
    - exists file, (promptText (store w)). rewrite Htasks1.
      apply lookup_added. now destruct Hc.
    - rewrite Htasks1. apply Forall_added; [|now left].
      revert Hq. apply Forall_impl. intros x Hx. now right. }
  destruct (run_in_flight _ evs w1 w2 Hc1 Hfly Hevs Hrun)
    as (Hc2 & Hl2 & Hid2 & (file2 & prompt2 & Ht2) & Hall2).
  split; [exact Hid2|]. split; [unfold step; now rewrite Hl2, Hid2|]. split.
  - rewrite (run_in_flight_cancel_requests _ evs w1 w2 Hc1 Hfly Hevs Hrun).
    rewrite Hlog1, filter_app. cbn. apply app_nil_r.
  - destruct (generateImage_success_step w2 _ file2 prompt2 r d Ht2 Hs Hd Hg)
      as (w3 & Hstep3 & Hstore3 & _ & _ & _ & Hlog3).
    exists w3. rewrite Hstore3. cbn. repeat split; auto.
Qed.

(** ** Further properties *)

(** *** What one event does to the selection, the log and the progress *)

Lemma step_selection (ev : Event) (w w' : World) :
  consistent w -> step ev w = Some w' ->
  match ev with
  | Drop (file :: _) =>
      if (size file <=? size_limit)%Z
      then inputFile (store w') = Some file /\ previewUrl (store w') = object_url file
      else inputFile (store w') = inputFile (store w) /\
           previewUrl (store w') = previewUrl (store w)
  | ClickRemoveImage =>
      inputFile (store w') = None /\ previewUrl (store w') = ""
  | _ =>
      inputFile (store w') = inputFile (store w) /\
      previewUrl (store w') = previewUrl (store w)
  end.
Proof.
  intros [Hts _ Hms _] Hstep.
  destruct ev; unfold step in Hstep.
  - injection Hstep as <-. unfold onDrop, size_limit.
    destruct acceptedFiles as [|file rest];
      [|destruct (size file <=? 10 * 1024 * 1024)%Z]; split; reflexivity.
  - destruct (String.eqb (previewUrl (store w)) ""); [discriminate|].
    injection Hstep as <-. split; reflexivity.
  - injection Hstep as <-. split; reflexivity.
  - destruct (inputFile (store w)) as [file|] eqn:Hf; [|discriminate].
    destruct (isLoading (store w)); [discriminate|].
    injection Hstep as <-. cbn. split; [now rewrite Hf|reflexivity].
  - destruct (isLoading (store w)); [|discriminate].
    injection Hstep as <-.
    destruct (currentRunId (store w)) as [[|c run]|]; split; reflexivity.
  - destruct (lookup interval (timers w)) as [cb|] eqn:E; [|discriminate].
    injection Hstep as <-.
    pose proof (lookup_Forall _ _ _ _ Hms E) as Hcb. simpl in Hcb. subst cb.
    unfold progress_callback, progress_updater. cbn.
    destruct (95 <=? uploadProgress (store w))%Z; split; reflexivity.
  - destruct (lookup task (tasks w)) as [p|] eqn:E; [|discriminate].
    pose proof (lookup_Forall _ _ _ _ Hts E) as Hp. simpl in Hp.
    destruct Hp; cbn in Hstep; try discriminate.
    injection Hstep as <-.
    destruct o as [[r|]|[|m]]; cbn; try (split; reflexivity).
    + destruct (String.eqb (status r) "success"); cbn;
        [destruct (data r) as [d|]; cbn;
         [destruct (String.eqb (generation_status d) "success"); cbn|]|];
        split; reflexivity.
    + destruct m as [m|]; cbn; [destruct (includes "timed out" m)|];
        split; reflexivity.
  - destruct (lookup task (tasks w)) as [p|] eqn:E; [|discriminate].
    pose proof (lookup_Forall _ _ _ _ Hts E) as Hp. simpl in Hp.
    destruct Hp; cbn in Hstep; try discriminate.
    injection Hstep as <-.
    destruct o as [[]|e]; split; reflexivity.
  - destruct (lookup task (tasks w)) as [p|] eqn:E; [|discriminate].
    pose proof (lookup_Forall _ _ _ _ Hts E) as Hp. simpl in Hp.
    destruct Hp; cbn in Hstep; try discriminate; injection Hstep as <-;
      destruct o as [[[? [[]|]]|]|e]; split; reflexivity.
Qed.

Ltac added_effects :=
  cbn;
  first [ exists []; split; [symmetry; apply app_nil_r|]
        | eexists; split; [rewrite <- ?app_assoc; reflexivity|] ];
  (split; [reflexivity|intros; first [reflexivity|discriminate]]).

Lemma step_effects (ev : Event) (w w' : World) :
  consistent w -> step ev w = Some w' ->
  exists l,
    log w' = log w ++ l /\
    (if is_click_transform ev
     then exists file,
            inputFile (store w) = Some file /\
            l = [IntervalSet (next_timer w) 500;
                 ExecuteWorkflowRequest workflowId
                   (mkInputs file (promptText (store w)))]
     else forallb (fun e => negb (is_execute_request e)) l = true) /\
    (is_nullish_rejection ev = false ->
     forallb (fun e => negb (is_unhandled e)) l = true).
Proof.
  intros [Hts _ Hms _] Hstep.
  destruct ev; unfold step in Hstep.
  - injection Hstep as <-. unfold onDrop.
    destruct acceptedFiles as [|file rest];
      [|destruct (size file <=? 10 * 1024 * 1024)%Z]; added_effects.
  - destruct (String.eqb (previewUrl (store w)) ""); [discriminate|].
    injection Hstep as <-. added_effects.
  - injection Hstep as <-. added_effects.
  - destruct (inputFile (store w)) as [file|] eqn:Hf; [|discriminate].
    destruct (isLoading (store w)); [discriminate|].
    injection Hstep as <-. cbn.
    eexists. split; [rewrite <- app_assoc; reflexivity|].
    split; [now exists file|reflexivity].
  - destruct (isLoading (store w)); [|discriminate].
    injection Hstep as <-.
    destruct (currentRunId (store w)) as [[|c run]|]; added_effects.
  - destruct (lookup interval (timers w)) as [cb|] eqn:E; [|discriminate].
    injection Hstep as <-.
    pose proof (lookup_Forall _ _ _ _ Hms E) as Hcb. simpl in Hcb. subst cb.
    unfold progress_callback, progress_updater. cbn.
    destruct (95 <=? uploadProgress (store w))%Z; added_effects.
  - destruct (lookup task (tasks w)) as [p|] eqn:E; [|discriminate].
    pose proof (lookup_Forall _ _ _ _ Hts E) as Hp. simpl in Hp.
    destruct Hp; cbn in Hstep; try discriminate.
    injection Hstep as <-.
    destruct o as [[r|]|[|m]]; cbn; try added_effects.
    + destruct (String.eqb (status r) "success"); cbn;
        [destruct (data r) as [d|]; cbn;
         [destruct (String.eqb (generation_status d) "success"); cbn|]|];
        added_effects.
    + destruct m as [m|]; cbn; [destruct (includes "timed out" m)|];
        added_effects.
  - destruct (lookup task (tasks w)) as [p|] eqn:E; [|discriminate].
    pose proof (lookup_Forall _ _ _ _ Hts E) as Hp. simpl in Hp.
    destruct Hp; cbn in Hstep; try discriminate.
    injection Hstep as <-.
    destruct o as [[]|e]; added_effects.
  - destruct (lookup task (tasks w)) as [p|] eqn:E; [|discriminate].
    pose proof (lookup_Forall _ _ _ _ Hts E) as Hp. simpl in Hp.
    destruct Hp; cbn in Hstep; try discriminate; injection Hstep as <-;
      destruct o as [[[? [[]|]]|]|e]; added_effects.
Qed.

Lemma step_progress (ev : Event) (w w' : World) :
  consistent w -> step ev w = Some w' ->
  uploadProgress (store w') = uploadProgress (store w) \/
  uploadProgress (store w') = 0%Z \/
  uploadProgress (store w') = 100%Z \/
  ((uploadProgress (store w) < 95)%Z /\
   uploadProgress (store w') = (uploadProgress (store w) + 5)%Z).
Proof.
  intros [Hts _ Hms _] Hstep.
  destruct ev; unfold step in Hstep.
  - injection Hstep as <-. unfold onDrop.
    destruct acceptedFiles as [|file rest];
      [|destruct (size file <=? 10 * 1024 * 1024)%Z]; now left.
  - destruct (String.eqb (previewUrl (store w)) ""); [discriminate|].
    injection Hstep as <-. now left.
  - injection Hstep as <-. now left.
  - destruct (inputFile (store w)) as [file|]; [|discriminate].
    destruct (isLoading (store w)); [discriminate|].
    injection Hstep as <-. right. now left.
  - destruct (isLoading (store w)); [|discriminate].
    injection Hstep as <-.
    destruct (currentRunId (store w)) as [[|c run]|]; now left.
  - destruct (lookup interval (timers w)) as [cb|] eqn:E; [|discriminate].
    pose proof (lookup_Forall _ _ _ _ Hms E) as Hcb. simpl in Hcb. subst cb.
    destruct (timer_fire w interval E) as (w1 & Hstep1 & Hif & _).
    unfold step in Hstep1. rewrite E in Hstep1.
    assert (w1 = w') by congruence. subst w1.
    destruct (Z.leb_spec 95 (uploadProgress (store w))) as [Hge|Hlt];
      destruct Hif as [_ Hp]; [now left|]. do 3 right. now split.
  - destruct (lookup task (tasks w)) as [p|] eqn:E; [|discriminate].
    pose proof (lookup_Forall _ _ _ _ Hts E) as Hp. simpl in Hp.
    destruct Hp; cbn in Hstep; try discriminate.
    injection Hstep as <-.
    destruct o as [[r|]|[|m]]; cbn; try now left.
    + destruct (String.eqb (status r) "success"); cbn;
        [destruct (data r) as [d|]; cbn;
         [destruct (String.eqb (generation_status d) "success"); cbn|]|];
        try now left.
      right. right. now left.
    + destruct m as [m|]; cbn; [destruct (includes "timed out" m)|]; now left.
  - destruct (lookup task (tasks w)) as [p|] eqn:E; [|discriminate].
    pose proof (lookup_Forall _ _ _ _ Hts E) as Hp. simpl in Hp.
    destruct Hp; cbn in Hstep; try discriminate.
    injection Hstep as <-.
    destruct o as [[]|e]; cbn; [right|]; now left.
  - destruct (lookup task (tasks w)) as [p|] eqn:E; [|discriminate].
    pose proof (lookup_Forall _ _ _ _ Hts E) as Hp. simpl in Hp.
    destruct Hp; cbn in Hstep; try discriminate; injection Hstep as <-;
      destruct o as [[[? [[]|]]|]|e]; now left.
Qed.

(** *** The selected file *)

Lemma no_execute_request_within_limit (l : list Effect) :
  forallb (fun e => negb (is_execute_request e)) l = true ->
  Forall request_within_limit l.
Proof.
  induction l as [|e l IH]; simpl; intros H; constructor.
  - apply andb_prop in H. destruct H as [H _]. now destruct e.
  - apply andb_prop in H. now apply IH.
Qed.

Lemma run_within_limit (evs : list Event) (w w' : World) :
  consistent w ->
  (forall f, inputFile (store w) = Some f -> (size f <= size_limit)%Z) ->
  Forall request_within_limit (log w) ->
  run evs w = Some w' ->
  (forall f, inputFile (store w') = Some f -> (size f <= size_limit)%Z) /\
  Forall request_within_limit (log w').
Proof.
  revert w. induction evs as [|ev evs IH]; simpl; intros w Hc Hf Hl Hrun.
  - injection Hrun as <-. now split.
  - destruct (step ev w) as [w1|] eqn:E; [|discriminate].
    pose proof (step_selection ev w w1 Hc E) as Hsel.
    destruct (step_effects ev w w1 Hc E) as (l & Hlog & Hreq & _).
    apply (IH w1); [eapply step_consistent; eassumption| | |exact Hrun].
    + intros f Hf1.
      assert (Hkeep : inputFile (store w1) = inputFile (store w) -> (size f <= size_limit)%Z).
      { intros Heq. apply Hf. congruence. }
      destruct ev; try (destruct Hsel as [Hsel _]; now apply Hkeep).
      * destruct acceptedFiles as [|file rest];
          [destruct Hsel as [Hsel _]; now apply Hkeep|].
        destruct (Z.leb_spec (size file) size_limit) as [Hle|Hgt];
          destruct Hsel as [Hsel _]; [|now apply Hkeep].
        rewrite Hsel in Hf1. now injection Hf1 as <-.
      * destruct Hsel as [Hsel _]. congruence.
    + rewrite Hlog. apply Forall_app. split; [exact Hl|].
      destruct (is_click_transform ev).
      * destruct Hreq as (file & Hfile & ->).
        repeat constructor. simpl. now apply Hf.
      * now apply no_execute_request_within_limit.
Qed.

(** X1: [onDrop] selects the first accepted file when it is at most 10 MB,
    with its object url as the preview, and shows nothing; when that file is
    larger, or when no file was accepted, it alerts "File size must be less
    than 10MB" and leaves the state as it was.  So the selected file is
    never larger than 10 MB, and neither is the image of any
    [executeWorkflowAsync] request that was ever sent. *)
Theorem upload_within_limit (w : World) :
  reachable w ->
  (forall files, exists w',
     step (Drop files) w = Some w' /\
     timers w' = timers w /\
     tasks w' = tasks w /\
     match files with
     | file :: _ =>
         if (size file <=? 10 * 1024 * 1024)%Z
         then inputFile (store w') = Some file /\
              previewUrl (store w') = object_url file /\
              log w' = log w
         else store w' = store w /\
              log w' = log w ++ [Alerted "File size must be less than 10MB"]
     | [] => store w' = store w /\
             log w' = log w ++ [Alerted "File size must be less than 10MB"]
     end) /\
  (forall f, inputFile (store w) = Some f -> (size f <= 10 * 1024 * 1024)%Z) /\
  (forall wf inputs, In (ExecuteWorkflowRequest wf inputs) (log w) ->
                     (size (image_22068 inputs) <= 10 * 1024 * 1024)%Z).
Proof.
  intros [evs Hrun]. split.
  - intros files. unfold step, onDrop.
    destruct files as [|file rest];
      [|destruct (size file <=? 10 * 1024 * 1024)%Z];
      (eexists; split; [reflexivity|]); cbn; repeat split; reflexivity.
  - destruct (run_within_limit evs mounted w mounted_consistent) as [Hf Hl];
      [discriminate|repeat constructor|exact Hrun|].
    split; [exact Hf|].
    intros wf inputs Hin.
    apply (proj1 (Forall_forall _ _) Hl) in Hin. exact Hin.
Qed.

(** X2: the preview always belongs to the selection: it is the object url
    of the selected file, and empty when no file is selected. *)
Theorem preview_matches_selection (w : World) :
  reachable w ->
  previewUrl (store w) = preview_of (inputFile (store w)).
Proof.
  intros [evs Hrun]. revert Hrun.
  assert (H0 : previewUrl (store mounted) = preview_of (inputFile (store mounted)))
    by reflexivity.
  revert H0. generalize mounted_consistent. generalize mounted.
  induction evs as [|ev evs IH]; simpl; intros w0 Hc H0 Hrun.
  - now injection Hrun as <-.
  - destruct (step ev w0) as [w1|] eqn:E; [|discriminate].
    pose proof (step_selection ev w0 w1 Hc E) as Hsel.
    apply (IH w1); [eapply step_consistent; eassumption| |exact Hrun].
    assert (Hkeep : inputFile (store w1) = inputFile (store w0) /\
                    previewUrl (store w1) = previewUrl (store w0) ->
                    previewUrl (store w1) = preview_of (inputFile (store w1))).
    { intros [H1 H2]. now rewrite H1, H2. }
    destruct ev; try now apply Hkeep.
    + destruct acceptedFiles as [|file rest]; [now apply Hkeep|].
      destruct (size file <=? size_limit)%Z; [|now apply Hkeep].
      destruct Hsel as [H1 H2]. now rewrite H1, H2.
    + destruct Hsel as [H1 H2]. now rewrite H1, H2.
Qed.

(** *** What the component never does *)

Lemma run_no_unhandled (evs : list Event) (w w' : World) :
  consistent w ->
  forallb (fun e => negb (is_unhandled e)) (log w) = true ->
  forallb (fun ev => negb (is_nullish_rejection ev)) evs = true ->
  run evs w = Some w' ->
  forallb (fun e => negb (is_unhandled e)) (log w') = true.
Proof.
  revert w. induction evs as [|ev evs IH]; simpl; intros w Hc Hl Hevs Hrun.
  - now injection Hrun as <-.
  - apply andb_prop in Hevs. destruct Hevs as [Hev Hevs].
    apply negb_true_iff in Hev.
    destruct (step ev w) as [w1|] eqn:E; [|discriminate].
    destruct (step_effects ev w w1 Hc E) as (l & Hlog & _ & Hun).
    apply (IH w1); [eapply step_consistent; eassumption| |exact Hevs|exact Hrun].
    rewrite Hlog, forallb_app, Hl. simpl. now apply Hun.
Qed.

(** X5: as long as no call of [executeWorkflowAsync] is rejected with
    [undefined] or [null], no handler ever ends in an unhandled rejection,
    whatever the remote calls answer and in whatever order the events
    come. *)
Theorem no_unhandled_rejection (evs : list Event) (w : World) :
  run evs mounted = Some w ->
  forallb (fun ev => negb (is_nullish_rejection ev)) evs = true ->
  forall e, ~ In (UnhandledRejection e) (log w).
Proof.
  intros Hrun Hevs e Hin.
  pose proof (run_no_unhandled evs mounted w mounted_consistent eq_refl Hevs Hrun) as H.
  apply (proj1 (forallb_forall _ _) H) in Hin. discriminate.
Qed.

Lemma run_execute_requests (evs : list Event) (w w' : World) :
  consistent w ->
  run evs w = Some w' ->
  List.length (filter is_execute_request (log w')) =
  (List.length (filter is_execute_request (log w)) +
   List.length (filter is_click_transform evs))%nat.
Proof.
  revert w. induction evs as [|ev evs IH]; intros w Hc Hrun.
  - injection Hrun as <-. simpl. lia.
  - cbn [run] in Hrun.
    destruct (step ev w) as [w1|] eqn:E; [|discriminate].
    destruct (step_effects ev w w1 Hc E) as (l & Hlog & Hreq & _).
    rewrite (IH w1 (step_consistent _ _ _ Hc E) Hrun).
    rewrite Hlog, filter_app, length_app. cbn [filter].
    destruct (is_click_transform ev).
    + destruct Hreq as (file & _ & ->). simpl. lia.
    + assert (Hnone : filter is_execute_request l = []).
      { clear -Hreq. induction l as [|e l IH]; [reflexivity|].
        simpl in Hreq. apply andb_prop in Hreq. destruct Hreq as [He Hl].
        simpl. apply negb_true_iff in He. rewrite He. now apply IH. }
      rewrite Hnone. simpl. lia.
Qed.

(** X8: the component sends one [executeWorkflowAsync] request for each
    click on the Transform button that the page accepts, and none
    otherwise: no failure, cancellation or timer makes it send the request
    again. *)
Theorem one_request_per_click (evs : list Event) (w : World) :
  run evs mounted = Some w ->
  List.length (filter is_execute_request (log w)) =
  List.length (filter is_click_transform evs).
Proof.
  intros Hrun.
  now rewrite (run_execute_requests evs mounted w mounted_consistent Hrun).
Qed.

(** *** The progress *)

(** X6: the progress is always a multiple of 5 between 0 and 100. *)
Theorem progress_range (w : World) :
  reachable w ->
  (0 <= uploadProgress (store w) <= 100)%Z /\
  (uploadProgress (store w) mod 5 = 0)%Z.
Proof.
  intros [evs Hrun].
  assert (H : exists k : Z, uploadProgress (store w) = (5 * k)%Z /\ (0 <= k <= 20)%Z).
  { revert Hrun.
    assert (H0 : exists k : Z, uploadProgress (store mounted) = (5 * k)%Z /\
                               (0 <= k <= 20)%Z)
      by (exists 0%Z; split; [reflexivity|lia]).
    revert H0. generalize mounted_consistent. generalize mounted.
    induction evs as [|ev evs IH]; cbn [run]; intros w0 Hc H0 Hrun.
    - now injection Hrun as <-.
    - destruct (step ev w0) as [w1|] eqn:E; [|discriminate].
      apply (IH w1); [eapply step_consistent; eassumption| |exact Hrun].
      destruct H0 as (k & Hk & Hrange).
      destruct (step_progress ev w0 w1 Hc E) as [H|[H|[H|[Hlt H]]]].
      + exists k. split; [congruence|exact Hrange].
      + exists 0%Z. split; [exact H|lia].
      + exists 20%Z. split; [exact H|lia].
      + exists (k + 1)%Z. split; lia. }
  destruct H as (k & Hk & Hrange). rewrite Hk. split; [lia|].
  rewrite Z.mul_comm. apply Z_mod_mult.
Qed.

(** *** The end of a submission *)

(** X7: whatever [executeWorkflowAsync] answers, a rejection with
    [undefined] included, [generateImage] ends with [isLoading] false and
    [currentRunId] null: at once when the answer is not a full success,
    and, when it is, as soon as the request for the past runs has settled,
    whatever that request answers. *)
Theorem loading_always_cleared (w : World) (t : TaskId) (file : File) (prompt : string)
    (o : Settled (option FlowscaleResponse)) :
  reachable w ->
  lookup t (tasks w) = Some (generateImage_suspended file prompt) ->
  exists w1,
    step (SettleExecuteWorkflow t o) w = Some w1 /\
    lookup t (tasks w1) = None /\
    if full_success o
    then lookup (next_task w) (tasks w1) = Some generateImage_refreshing /\
         forall o', exists w2,
           step (SettleGetRuns (next_task w) o') w1 = Some w2 /\
           isLoading (store w2) = false /\
           currentRunId (store w2) = None /\
           lookup (next_task w) (tasks w2) = None
    else isLoading (store w1) = false /\
         currentRunId (store w1) = None /\
         tasks w1 = remove_key t (tasks w).
Proof.
  intros Hr Ht.
  pose proof (reachable_consistent w Hr) as [_ Hfresh _ _].
  assert (Hne : t <> next_task w).
  { pose proof (lookup_Forall _ _ _ _ Hfresh Ht) as Hlt. simpl in Hlt. lia. }
  destruct (full_success o) eqn:Hfs.
  - destruct o as [[r|]|e]; try discriminate.
    cbn in Hfs. apply andb_prop in Hfs. destruct Hfs as [Hs Hd].
    destruct (data r) as [d|] eqn:Hdata; [|discriminate].
    apply String.eqb_eq in Hs, Hd.
    destruct (generateImage_success_step w t file prompt r d Ht Hs Hdata Hd)
      as (w1 & Hstep & _ & _ & Htasks & _).
    assert (Hpending : lookup (next_task w) (tasks w1) = Some generateImage_refreshing).
    { rewrite Htasks. apply lookup_added. now apply Forall_remove_key. }
    exists w1. split; [exact Hstep|]. split; [|split; [exact Hpending|]].
    + rewrite Htasks, lookup_app, lookup_remove_same. cbn.
      destruct (Nat.eqb_spec (next_task w) t); congruence.
    + intros o'.
      destruct (generateImage_refreshed w1 (next_task w) o' Hpending)
        as (w2 & l & Hstep2 & _ & _ & Hload & Hid & _ & _ & _ & _ & Htasks2).
      exists w2. repeat split; auto.
      rewrite Htasks2. apply lookup_remove_same.
  - destruct (generateImage_unsuccessful w t file prompt o Ht Hfs)
      as (w1 & Hstep & Hload & Hid & Htasks).
    exists w1. repeat split; auto.
    rewrite Htasks. apply lookup_remove_same.
Qed.

(** *** Fetching the past runs *)

(** X4: a call of [fetchPastRuns] made on its own never throws and touches
    nothing but [pastRuns]: an answer that has [data.runs] replaces
    [pastRuns]; a rejection or an answer without [data] is logged with
    [console.error] and leaves [pastRuns] as it was. *)
Theorem fetchPastRuns_settled (w : World) (t : TaskId)
    (o : Settled (option RunsResponse)) :
  lookup t (tasks w) = Some fetchPastRuns ->
  exists w' l,
    step (SettleGetRuns t o) w = Some w' /\
    log w' = log w ++ l /\
    store w' = store (perform (setPastRuns (pastRuns (store w'))) w) /\
    timers w' = timers w /\
    tasks w' = remove_key t (tasks w) /\
    match o with
    | Fulfilled (Some resp) =>
        match runs_response_data resp with
        | Some rd => l = [] /\ pastRuns (store w') = runs rd
        | None => l = [ConsoleError "Error fetching past runs:" (TypeError "runs")] /\
                  pastRuns (store w') = pastRuns (store w)
        end
    | Fulfilled None =>
        l = [ConsoleError "Error fetching past runs:" (TypeError "data")] /\
        pastRuns (store w') = pastRuns (store w)
    | Rejected e =>
        l = [ConsoleError "Error fetching past runs:" e] /\
        pastRuns (store w') = pastRuns (store w)
    end.
Proof.
  intros Ht. unfold step. rewrite Ht. cbn.
  destruct o as [[[st [rd|]]|]|e]; cbn.
  - exists (perform (setPastRuns (runs rd)) (finish_task t w)), [].
    cbn. rewrite app_nil_r. repeat split; reflexivity.
  - do 2 eexists. split; [reflexivity|]. cbn. destruct (store w).
    repeat split; reflexivity.
  - do 2 eexists. split; [reflexivity|]. cbn. destruct (store w).
    repeat split; reflexivity.
  - do 2 eexists. split; [reflexivity|]. cbn. destruct (store w).
    repeat split; reflexivity.
Qed.

(** *** Cancelling with a run id *)

(** X10: a click on Cancel while a non-empty run id is held sends one
    [cancelRun] request for that id and changes no state cell before the
    request settles; an empty run id counts as none, and the click does
    nothing. *)
Theorem cancel_request_sent (w : World) (id : string) :
  isLoading (store w) = true ->
  currentRunId (store w) = Some id ->
  exists w',
    step ClickCancel w = Some w' /\
    store w' = store w /\
    timers w' = timers w /\
    if String.eqb id ""
    then w' = w
    else log w' = log w ++ [CancelRunRequest id] /\
         tasks w' = tasks w ++ [(next_task w, handleCancel_suspended id)].
Proof.
  intros Hload Hid. unfold step. rewrite Hload, Hid.
  destruct id as [|c id]; cbn.
  - exists w. repeat split; reflexivity.
  - eexists. split; [reflexivity|]. cbn. repeat split; reflexivity.
Qed.

(** *** The timeout test *)

Lemma prefix_iff (needle hay : string) :
  String.prefix needle hay = true <->
  exists post, hay = (needle ++ post)%string.
Proof.
  revert hay. induction needle as [|a needle IH]; intros hay.
  - destruct hay; simpl; split; eauto.
  - destruct hay as [|b hay]; simpl.
    + split; [discriminate|]. intros [post H]. discriminate.
    + destruct (Ascii.ascii_dec a b) as [->|Hne].
      * rewrite IH. split; intros [post H]; exists post; congruence.
      * split; [discriminate|]. intros [post H]. congruence.
Qed.

(** X9: [includes] is the substring test of JavaScript: it holds exactly
    when the needle occurs in the string as a contiguous, case-sensitive
    run of characters; so the timeout message is chosen exactly for the
    errors whose message has "timed out" somewhere inside. *)
Theorem includes_iff (needle hay : string) :
  includes needle hay = true <->
  exists pre post, hay = (pre ++ needle ++ post)%string.
Proof.
  induction hay as [|c hay IH].
  - cbn [includes]. destruct (String.prefix needle "") eqn:E.
    + split; [|reflexivity]. intros _.
      apply prefix_iff in E. destruct E as [post E]. now exists "", post.
    + split; [discriminate|]. intros (pre & post & H).
      destruct pre; [|discriminate]. simpl in H.
      assert (Hp : String.prefix needle "" = true) by (apply prefix_iff; eauto).
      congruence.
  - cbn [includes]. destruct (String.prefix needle (String c hay)) eqn:E.
    + split; [|reflexivity]. intros _.
      apply prefix_iff in E. destruct E as [post E]. now exists "", post.
    + rewrite IH. split.
      * intros (pre & post & H). exists (String c pre), post. simpl. now rewrite H.
      * intros (pre & post & H). destruct pre as [|c' pre]; simpl in H.
        -- assert (Hp : String.prefix needle (String c hay) = true)
             by (apply prefix_iff; eauto).
           congruence.
        -- injection H as _ H. eauto.
Qed.

(** *** What the page shows *)

(** X11: the output card always shows exactly one of its three blocks: the
    "Generating..." block with the Cancel button while [isLoading], else the
    generated image when there is an output url, else the placeholder; and
    Cancel can be clicked exactly when the first one is shown. *)
Theorem output_section_one_panel (w : World) :
  output_section (store w) =
    [if isLoading (store w) then GeneratingPanel
     else if truthy (Some (outputImageUrl (store w)))
          then GeneratedImage (outputImageUrl (store w))
          else EmptyPanel] /\
  (output_section (store w) = [GeneratingPanel] <->
   exists w', step ClickCancel w = Some w').
Proof.
  unfold output_section, step.
  destruct (isLoading (store w)); destruct (outputImageUrl (store w)) as [|c u];
    cbn; (split; [reflexivity|]); split; eauto; try discriminate;
    intros [w' H]; discriminate.
Qed.





(** *** Loading the module *)

(** X12: the module loads exactly when the three variables are set to
    non-empty strings, and the client is then built from exactly those
    values; otherwise loading throws. *)
Theorem load_module_iff (env : ProcessEnv) :
  (forall m, load_module env = inr m ->
     NEXT_PUBLIC_FLOWSCALE_API_KEY env = Some (apiKey (flowscale m)) /\
     NEXT_PUBLIC_FLOWSCALE_API_URL env = Some (baseUrl (flowscale m)) /\
     NEXT_PUBLIC_FLOWSCALE_WORKFLOW_ID env = Some (loaded_workflowId m) /\
     apiKey (flowscale m) <> "" /\
     baseUrl (flowscale m) <> "" /\
     loaded_workflowId m <> "") /\
  ((exists m, load_module env = inr m) <->
   truthy (NEXT_PUBLIC_FLOWSCALE_API_KEY env) &&
   truthy (NEXT_PUBLIC_FLOWSCALE_API_URL env) &&
   truthy (NEXT_PUBLIC_FLOWSCALE_WORKFLOW_ID env) = true).
Proof.
  unfold load_module.
  destruct env as [[[|a k]|] [[|b u]|] [[|c i]|]]; cbn;
    (split; [intros m H; try discriminate; injection H as <-; cbn;
             repeat split; discriminate
            |split; [intros [m H]; try discriminate; reflexivity
                    |intros H; try discriminate; eauto]]).
Qed.

(** *** One submission at a time *)

(** X14: after a submission made when nothing else is under way, the
    Transform button stays disabled until the call of
    [executeWorkflowAsync] comes back: no click on Cancel, firing of the
    interval, change of the file or the prompt, or answer to a
    [fetchPastRuns] enables it, so no second request can be sent in that
    time. *)
Theorem no_double_submit (w w1 : World) (evs : list Event) (w2 : World) :
  reachable w ->
  quiescent w ->
  step ClickTransform w = Some w1 ->
  none_settles_execute evs ->
  run evs w1 = Some w2 ->
  isLoading (store w2) = true /\
  step ClickTransform w2 = None /\
  List.length (filter is_execute_request (log w2)) =
  S (List.length (filter is_execute_request (log w))).
Proof.
  intros Hr Hq Hstep Hevs Hrun.
  pose proof (reachable_consistent w Hr) as Hc.
  pose proof (step_consistent _ _ _ Hc Hstep) as Hc1.
  pose proof (quiescent_no_run_id w Hr Hq) as Hid.
  assert (Hclick : exists file, inputFile (store w) = Some file /\
                                isLoading (store w) = false).
  { unfold step in Hstep. destruct (inputFile (store w)) as [file|]; [|discriminate].
    destruct (isLoading (store w)); [discriminate|]. now exists file. }
  destruct Hclick as (file & Hfile & Hload).
  destruct (click_transform w file Hfile Hload)
    as (w1' & Hstep' & Hl1 & _ & _ & Hid1 & _ & Htasks1 & _ & Hlog1).
  assert (w1' = w1) by congruence. subst w1'.
  assert (Hfly : in_flight (next_task w) w1).
  { split; [exact Hl1|]. split; [congruence|]. split.
    - exists file, (promptText (store w)). rewrite Htasks1.
      apply lookup_added. now destruct Hc.
    - rewrite Htasks1. apply Forall_added; [|now left].
      revert Hq. apply Forall_impl. intros x Hx. now right. }
  destruct (run_in_flight _ evs w1 w2 Hc1 Hfly Hevs Hrun) as (_ & Hl2 & _).
  split; [exact Hl2|]. split.
  - unfold step. rewrite Hl2. now destruct (inputFile (store w2)).
  - rewrite (run_execute_requests evs w1 w2 Hc1 Hrun), Hlog1, filter_app, length_app.
    assert (Hnone : forall l : list Event,
              run l w1 <> None -> in_flight (next_task w) w1 ->
              forallb (fun ev => negb (is_settle_execute ev)) l = true ->
              filter is_click_transform l = []).
    { intros l. generalize Hc1. generalize w1.
      induction l as [|ev l IH]; intros w0 Hc0 Hsome Hf0 Hl; [reflexivity|].
      cbn [run] in Hsome. cbn [forallb] in Hl.
      apply andb_prop in Hl. destruct Hl as [Hev Hl]. apply negb_true_iff in Hev.
      destruct (step ev w0) as [w0'|] eqn:E; [|congruence].
      cbn [filter].
      destruct ev; cbn [is_click_transform];
        try (apply (IH w0');
             [eapply step_consistent; eassumption|exact Hsome
             |eapply step_in_flight; eassumption|exact Hl]).
      exfalso. destruct Hf0 as (Hl0 & _). unfold step in E. rewrite Hl0 in E.
      destruct (inputFile (store w0)); discriminate. }
    rewrite (Hnone evs); [cbn; lia|congruence|exact Hfly|exact Hevs].
Qed.

(** *** Choosing and removing a file *)

(** X3: removing the image undoes choosing it: when no file is selected,
    dropping a file within the limit and then clicking the remove button
    leaves the component exactly as it was. *)
Theorem drop_then_remove (w : World) (file : File) (rest : list File) :
  inputFile (store w) = None ->
  previewUrl (store w) = "" ->
  (size file <= 10 * 1024 * 1024)%Z ->
  object_url file <> "" ->
  run [Drop (file :: rest); ClickRemoveImage] w = Some w.
Proof.
  intros Hf Hp Hsize Hurl. cbn [run]. unfold step at 1. unfold onDrop.
  apply Z.leb_le in Hsize. rewrite Hsize. cbn.
  destruct (String.eqb_spec (object_url file) ""); [congruence|].
  cbn. f_equal. destruct w as [s tm nt ts nk lg]. destruct s. cbn in *.
  now subst.
Qed.

End ImageTransformer.

(** ** Scenarios *)

(** C1: when [executeWorkflowAsync] rejects with [undefined], the [catch]
    block of [generateImage] throws on [error.message]: the error is logged,
    no message is shown, and the [TypeError] leaves the handler as an
    unhandled rejection; the [finally] block still clears [isLoading] and
    [currentRunId]. *)
Theorem generateImage_nullish_rejection_escapes :
  exists w,
    run "workflow-1"
        (submit_events ++ [SettleExecuteWorkflow 1%nat (Rejected ThrownNullish)])
        mounted = Some w /\
    log w = [GetRunsRequest;
             IntervalSet 0%nat 500;
             ExecuteWorkflowRequest "workflow-1" (mkInputs valid_png "a cat");
             ConsoleError "Error processing image:" ThrownNullish;
             UnhandledRejection (TypeError "message")] /\
    isLoading (store w) = false /\
    currentRunId (store w) = None /\
    lookup 1%nat (tasks w) = None.
Proof.
  eexists. split; [vm_compute; reflexivity|]. repeat split; vm_compute; reflexivity.
Qed.

(** C2 fails: Cancel is clicked while the call is in flight, the call then
    resolves as a success and the past runs are fetched; at the end the
    progress is 100, the output url is set, and no [cancelRun] request was
    ever sent. *)
Lemma late_success_after_cancel_is_applied :
  exists w,
    run "workflow-1"
        (submit_events ++
         [ClickCancel;
          SettleExecuteWorkflow 1%nat (Fulfilled success_response);
          SettleGetRuns 2%nat (Fulfilled runs_answer)])
        mounted = Some w /\
    isLoading (store w) = false /\
    uploadProgress (store w) = 100%Z /\
    uploadProgress (store w) <> 0%Z /\
    outputImageUrl (store w) = "https://x/out.png" /\
    outputImageUrl (store w) <> "" /\
    forallb (fun e => negb (is_cancel_request e)) (log w) = true.
Proof.
  eexists. split; [vm_compute; reflexivity|]. repeat split; vm_compute; try reflexivity; discriminate.
Qed.

(** C3 fails: Cancel is clicked while a run id is held and [cancelRun]
    rejects; when [handleCancel] has ended, [isLoading] is still true, the
    run id is still held and the progress is still 100. *)
Lemma failed_cancel_leaves_state :
  exists w,
    run "workflow-1"
        (cancel_events ++ [SettleCancelRun 3%nat (Rejected (Error "Network Error"))])
        mounted = Some w /\
    lookup 3%nat (tasks w) = None /\
    isLoading (store w) = true /\
    currentRunId (store w) = Some "run-1" /\
    uploadProgress (store w) = 100%Z /\
    last (log w) GetRunsRequest
      = ConsoleError "Error cancelling run:" (Error "Network Error").
Proof.
  eexists. split; [vm_compute; reflexivity|]. repeat split; vm_compute; reflexivity.
Qed.

(** C4 fails: the interval fires once, the call is then rejected and
    [generateImage] ends; the interval is still set, and its next firing
    takes the progress from 5 to 10. *)
Lemma ticker_survives_failure :
  exists w w',
    run "workflow-1"
        (submit_events ++
         [TimerFire 0%nat;
          SettleExecuteWorkflow 1%nat (Rejected (Error "Generation failed"))])
        mounted = Some w /\
    isLoading (store w) = false /\
    tasks w = [(0%nat, fetchPastRuns)] /\
    lookup 0%nat (timers w) = Some (progress_callback 0%nat) /\
    uploadProgress (store w) = 5%Z /\
    step "workflow-1" (TimerFire 0%nat) w = Some w' /\
    uploadProgress (store w') = 10%Z.
Proof.
  do 2 eexists. split; [vm_compute; reflexivity|]. repeat split; vm_compute; reflexivity.
Qed.


(** C10 fails: with three overlapping submissions, the call of the third
    is in flight while the run id of the second is held, and a click on
    Cancel then sends a [cancelRun] request. *)
Lemma run_id_held_while_another_call_in_flight :
  exists w w',
    run "workflow-1" overlapping_events mounted = Some w /\
    lookup 5%nat (tasks w)
      = Some (generateImage_suspended "workflow-1" valid_png "a cat") /\
    isLoading (store w) = true /\
    currentRunId (store w) = Some "run-2" /\
    currentRunId (store w) <> None /\
    step "workflow-1" ClickCancel w = Some w' /\
    w' <> w /\
    log w' = log w ++ [CancelRunRequest "run-2"].
Proof.
  do 2 eexists. split; [vm_compute; reflexivity|]. repeat split; try (vm_compute; reflexivity); try discriminate.
Qed.

(** ** The theorems at concrete states *)

(** [generateImage_without_file] at the mounted component, where no file is
    selected. *)
Lemma generateImage_without_file_witness :
  inputFile (store mounted) = None /\
  (let w' := exec (generateImage "workflow-1" (inputFile (store mounted))
                                 (promptText (store mounted))) mounted in
   log w' = log mounted ++ [Alerted "Please select an image first"] /\
   store w' = store mounted /\
   tasks w' = tasks mounted /\
   timers w' = timers mounted /\
   step "workflow-1" ClickTransform mounted = None).
Proof.
  split; [reflexivity|].
  apply (generateImage_without_file "workflow-1" mounted). reflexivity.
Defined.

(** [handleCancel_without_run] at the mounted component. *)
Lemma handleCancel_without_run_witness :
  currentRunId (store mounted) = None /\
  exec (handleCancel (currentRunId (store mounted))) mounted = mounted /\
  forall w', step "workflow-1" ClickCancel mounted = Some w' -> w' = mounted.
Proof.
  split; [reflexivity|].
  apply (handleCancel_without_run "workflow-1" mounted). reflexivity.
Defined.

(** [generateImage_timeout] for the message "Request timed out". *)
Lemma generateImage_timeout_witness :
  lookup 1%nat (tasks (after "workflow-1" submit_events))
    = Some (generateImage_suspended "workflow-1" valid_png "a cat") /\
  includes "timed out" "Request timed out" = true /\
  (exists w',
     step "workflow-1"
          (SettleExecuteWorkflow 1%nat (Rejected (Error "Request timed out")))
          (after "workflow-1" submit_events) = Some w' /\
     log w' = log (after "workflow-1" submit_events)
              ++ [ConsoleError "Error processing image:" (Error "Request timed out");
                  Alerted timeout_message] /\
     isLoading (store w') = false /\
     currentRunId (store w') = None).
Proof.
  split; [vm_compute; reflexivity|]. split; [vm_compute; reflexivity|].
  apply (generateImage_timeout "workflow-1" (after "workflow-1" submit_events)
           1%nat valid_png "a cat" "Request timed out");
    vm_compute; reflexivity.
Defined.

(** [generateImage_success] for the result of the scenario of the
    specification. *)
Lemma generateImage_success_witness :
  reachable "workflow-1" (after "workflow-1" submit_events) /\
  lookup 1%nat (tasks (after "workflow-1" submit_events))
    = Some (generateImage_suspended "workflow-1" valid_png "a cat") /\
  status success_result = "success" /\
  data success_result = Some success_data /\
  generation_status success_data = "success" /\
  exists w1,
    step "workflow-1" (SettleExecuteWorkflow 1%nat (Fulfilled (Some success_result)))
         (after "workflow-1" submit_events) = Some w1 /\
    uploadProgress (store w1) = 100%Z /\
    outputImageUrl (store w1) = "https://x/out.png" /\
    currentRunId (store w1) = Some "run-1" /\
    log w1 = log (after "workflow-1" submit_events) ++ [GetRunsRequest].
Proof.
  assert (Hr : reachable "workflow-1" (after "workflow-1" submit_events))
    by (exists submit_events; vm_compute; reflexivity).
  assert (Ht : lookup 1%nat (tasks (after "workflow-1" submit_events))
               = Some (generateImage_suspended "workflow-1" valid_png "a cat"))
    by (vm_compute; reflexivity).
  repeat (split; [first [exact Hr | exact Ht | reflexivity]|]).
  destruct (generateImage_success "workflow-1" (after "workflow-1" submit_events)
              1%nat valid_png "a cat" success_result success_data
              Hr Ht eq_refl eq_refl eq_refl)
    as (w1 & Hstep & Hp & Hu & Hid & Hlog & _).
  exists w1. exact (conj Hstep (conj Hp (conj Hu (conj Hid Hlog)))).
Defined.

(** [cancel_in_flight_then_success] for a firing, a click on Cancel and an
    edit of the prompt during the flight. *)
Lemma cancel_in_flight_then_success_witness :
  reachable "workflow-1" (after "workflow-1" select_events) /\
  quiescent (after "workflow-1" select_events) /\
  step "workflow-1" ClickTransform (after "workflow-1" select_events)
    = Some (after "workflow-1" submit_events) /\
  none_settles_execute [TimerFire 0%nat; ClickCancel; TypePrompt "a dog"] /\
  run "workflow-1" [TimerFire 0%nat; ClickCancel; TypePrompt "a dog"]
      (after "workflow-1" submit_events)
    = Some (after "workflow-1"
              (submit_events ++ [TimerFire 0%nat; ClickCancel; TypePrompt "a dog"])) /\
  status success_result = "success" /\
  data success_result = Some success_data /\
  generation_status success_data = "success" /\
  filter is_cancel_request
    (log (after "workflow-1"
            (submit_events ++ [TimerFire 0%nat; ClickCancel; TypePrompt "a dog"])))
    = filter is_cancel_request (log (after "workflow-1" select_events)) /\
  exists w3,
    step "workflow-1"
         (SettleExecuteWorkflow (next_task (after "workflow-1" select_events))
            (Fulfilled (Some success_result)))
         (after "workflow-1"
            (submit_events ++ [TimerFire 0%nat; ClickCancel; TypePrompt "a dog"]))
      = Some w3 /\
    uploadProgress (store w3) = 100%Z /\
    outputImageUrl (store w3) = download_url success_data /\
    currentRunId (store w3) = Some (runId success_result) /\
    isLoading (store w3) = true /\
    log w3 = log (after "workflow-1"
                    (submit_events ++ [TimerFire 0%nat; ClickCancel; TypePrompt "a dog"]))
             ++ [GetRunsRequest].
Proof.
  assert (Hr : reachable "workflow-1" (after "workflow-1" select_events))
    by (exists select_events; vm_compute; reflexivity).
  assert (Hq : quiescent (after "workflow-1" select_events))
    by (repeat constructor).
  assert (Hs : step "workflow-1" ClickTransform (after "workflow-1" select_events)
               = Some (after "workflow-1" submit_events))
    by (vm_compute; reflexivity).
  assert (He : none_settles_execute [TimerFire 0%nat; ClickCancel; TypePrompt "a dog"])
    by reflexivity.
  assert (Hrun : run "workflow-1" [TimerFire 0%nat; ClickCancel; TypePrompt "a dog"]
                     (after "workflow-1" submit_events)
                 = Some (after "workflow-1"
                           (submit_events
                            ++ [TimerFire 0%nat; ClickCancel; TypePrompt "a dog"])))
    by (vm_compute; reflexivity).
  destruct (cancel_in_flight_then_success "workflow-1" _ _ _ _
              success_result success_data Hr Hq Hs He Hrun eq_refl eq_refl eq_refl)
    as (_ & _ & H3 & H4).
  exact (conj Hr (conj Hq (conj Hs (conj He (conj Hrun
           (conj eq_refl (conj eq_refl (conj eq_refl (conj H3 H4))))))))).
Defined.

(** [handleCancel_settled] for a cancellation made while run 1 refreshes
    the past runs. *)
Lemma handleCancel_settled_witness :
  lookup 3%nat (tasks (after "workflow-1" cancel_events))
    = Some (handleCancel_suspended "run-1") /\
  (exists w',
     step "workflow-1" (SettleCancelRun 3%nat (Rejected (Error "Network Error")))
          (after "workflow-1" cancel_events) = Some w' /\
     store w' = store (after "workflow-1" cancel_events) /\
     timers w' = timers (after "workflow-1" cancel_events) /\
     tasks w' = remove_key 3%nat (tasks (after "workflow-1" cancel_events)) /\
     log w' = log (after "workflow-1" cancel_events)
              ++ [ConsoleError "Error cancelling run:" (Error "Network Error")]) /\
  (exists w',
     step "workflow-1" (SettleCancelRun 3%nat (Fulfilled tt))
          (after "workflow-1" cancel_events) = Some w' /\
     isLoading (store w') = false /\
     currentRunId (store w') = None /\
     uploadProgress (store w') = 0%Z /\
     timers w' = timers (after "workflow-1" cancel_events) /\
     tasks w' = remove_key 3%nat (tasks (after "workflow-1" cancel_events)) /\
     log w' = log (after "workflow-1" cancel_events)).
Proof.
  assert (Ht : lookup 3%nat (tasks (after "workflow-1" cancel_events))
               = Some (handleCancel_suspended "run-1"))
    by (vm_compute; reflexivity).
  split; [exact Ht|].
  exact (handleCancel_settled "workflow-1" (after "workflow-1" cancel_events)
           3%nat "run-1" (Error "Network Error") Ht).
Defined.

(** [intervals_after_step] at the first firing of the interval. *)
Lemma intervals_after_step_witness :
  reachable "workflow-1" (after "workflow-1" submit_events) /\
  step "workflow-1" (TimerFire 0%nat) (after "workflow-1" submit_events)
    = Some (after "workflow-1" (submit_events ++ [TimerFire 0%nat])) /\
  timers (after "workflow-1" (submit_events ++ [TimerFire 0%nat]))
    = timers (after "workflow-1" submit_events) /\
  uploadProgress (store (after "workflow-1" (submit_events ++ [TimerFire 0%nat])))
    = (uploadProgress (store (after "workflow-1" submit_events)) + 5)%Z.
Proof.
  assert (Hr : reachable "workflow-1" (after "workflow-1" submit_events))
    by (exists submit_events; vm_compute; reflexivity).
  assert (Hs : step "workflow-1" (TimerFire 0%nat) (after "workflow-1" submit_events)
               = Some (after "workflow-1" (submit_events ++ [TimerFire 0%nat])))
    by (vm_compute; reflexivity).
  split; [exact Hr|]. split; [exact Hs|].
  pose proof (intervals_after_step "workflow-1" _ _ _ Hr Hs) as H.
  cbv beta iota in H.
  change (95 <=? uploadProgress (store (after "workflow-1" submit_events)))%Z
    with false in H.
  exact H.
Defined.


(** [run_id_null_in_flight] for a firing, a click on Cancel and an edit of
    the prompt during the flight. *)
Lemma run_id_null_in_flight_witness :
  reachable "workflow-1" (after "workflow-1" select_events) /\
  quiescent (after "workflow-1" select_events) /\
  step "workflow-1" ClickTransform (after "workflow-1" select_events)
    = Some (after "workflow-1" submit_events) /\
  none_settles_execute [TimerFire 0%nat; ClickCancel; TypePrompt "a dog"] /\
  run "workflow-1" [TimerFire 0%nat; ClickCancel; TypePrompt "a dog"]
      (after "workflow-1" submit_events)
    = Some (after "workflow-1"
              (submit_events ++ [TimerFire 0%nat; ClickCancel; TypePrompt "a dog"])) /\
  currentRunId (store (after "workflow-1" submit_events)) = None /\
  currentRunId
    (store (after "workflow-1"
              (submit_events ++ [TimerFire 0%nat; ClickCancel; TypePrompt "a dog"])))
    = None /\
  step "workflow-1" ClickCancel
       (after "workflow-1"
          (submit_events ++ [TimerFire 0%nat; ClickCancel; TypePrompt "a dog"]))
    = Some (after "workflow-1"
              (submit_events ++ [TimerFire 0%nat; ClickCancel; TypePrompt "a dog"])).
Proof.
  assert (Hr : reachable "workflow-1" (after "workflow-1" select_events))
    by (exists select_events; vm_compute; reflexivity).
  assert (Hq : quiescent (after "workflow-1" select_events))
    by (repeat constructor).
  assert (Hs : step "workflow-1" ClickTransform (after "workflow-1" select_events)
               = Some (after "workflow-1" submit_events))
    by (vm_compute; reflexivity).
  assert (He : none_settles_execute [TimerFire 0%nat; ClickCancel; TypePrompt "a dog"])
    by reflexivity.
  assert (Hrun : run "workflow-1" [TimerFire 0%nat; ClickCancel; TypePrompt "a dog"]
                     (after "workflow-1" submit_events)
                 = Some (after "workflow-1"
                           (submit_events
                            ++ [TimerFire 0%nat; ClickCancel; TypePrompt "a dog"])))
    by (vm_compute; reflexivity).
  destruct (run_id_null_in_flight "workflow-1" _ _ _ _ Hr Hq Hs He Hrun)
    as (H1 & H2 & _ & H3 & _).
  exact (conj Hr (conj Hq (conj Hs (conj He (conj Hrun (conj H1 (conj H2 H3))))))).
Defined.

(** ** The further properties at concrete states *)

(** [upload_within_limit] after a submission. *)
Lemma upload_within_limit_witness :
  reachable "workflow-1" (after "workflow-1" submit_events) /\
  (forall f, inputFile (store (after "workflow-1" submit_events)) = Some f ->
             (size f <= 10 * 1024 * 1024)%Z) /\
  (forall wf inputs,
     In (ExecuteWorkflowRequest wf inputs) (log (after "workflow-1" submit_events)) ->
     (size (image_22068 inputs) <= 10 * 1024 * 1024)%Z).
Proof.
  assert (Hr : reachable "workflow-1" (after "workflow-1" submit_events))
    by (exists submit_events; vm_compute; reflexivity).
  exact (conj Hr (proj2 (upload_within_limit "workflow-1" _ Hr))).
Defined.

(** [preview_matches_selection] after the choice of a file. *)
Lemma preview_matches_selection_witness :
  reachable "workflow-1" (after "workflow-1" select_events) /\
  previewUrl (store (after "workflow-1" select_events))
    = preview_of (inputFile (store (after "workflow-1" select_events))).
Proof.
  assert (Hr : reachable "workflow-1" (after "workflow-1" select_events))
    by (exists select_events; vm_compute; reflexivity).
  exact (conj Hr (preview_matches_selection "workflow-1" _ Hr)).
Defined.

(** [no_unhandled_rejection] for a submission that times out. *)
Lemma no_unhandled_rejection_witness :
  run "workflow-1"
      (submit_events
       ++ [SettleExecuteWorkflow 1%nat (Rejected (Error "Request timed out"))])
      mounted
    = Some (after "workflow-1"
              (submit_events
               ++ [SettleExecuteWorkflow 1%nat (Rejected (Error "Request timed out"))])) /\
  forallb (fun ev => negb (is_nullish_rejection ev))
          (submit_events
           ++ [SettleExecuteWorkflow 1%nat (Rejected (Error "Request timed out"))])
    = true /\
  forall e,
    ~ In (UnhandledRejection e)
         (log (after "workflow-1"
                 (submit_events
                  ++ [SettleExecuteWorkflow 1%nat
                        (Rejected (Error "Request timed out"))]))).
Proof.
  assert (Hrun : run "workflow-1"
                     (submit_events
                      ++ [SettleExecuteWorkflow 1%nat (Rejected (Error "Request timed out"))])
                     mounted
                 = Some (after "workflow-1"
                           (submit_events
                            ++ [SettleExecuteWorkflow 1%nat
                                  (Rejected (Error "Request timed out"))])))
    by (vm_compute; reflexivity).
  assert (Hevs : forallb (fun ev => negb (is_nullish_rejection ev))
                   (submit_events
                    ++ [SettleExecuteWorkflow 1%nat (Rejected (Error "Request timed out"))])
                 = true)
    by (vm_compute; reflexivity).
  exact (conj Hrun (conj Hevs (no_unhandled_rejection "workflow-1" _ _ Hrun Hevs))).
Defined.

(** [one_request_per_click] for the three overlapping submissions. *)
Lemma one_request_per_click_witness :
  run "workflow-1" overlapping_events mounted
    = Some (after "workflow-1" overlapping_events) /\
  List.length (filter is_execute_request (log (after "workflow-1" overlapping_events)))
    = List.length (filter is_click_transform overlapping_events).
Proof.
  assert (Hrun : run "workflow-1" overlapping_events mounted
                 = Some (after "workflow-1" overlapping_events))
    by (vm_compute; reflexivity).
  exact (conj Hrun (one_request_per_click "workflow-1" _ _ Hrun)).
Defined.

(** [progress_range] after a success. *)
Lemma progress_range_witness :
  reachable "workflow-1" (after "workflow-1" success_events) /\
  (0 <= uploadProgress (store (after "workflow-1" success_events)) <= 100)%Z /\
  (uploadProgress (store (after "workflow-1" success_events)) mod 5 = 0)%Z.
Proof.
  assert (Hr : reachable "workflow-1" (after "workflow-1" success_events))
    by (exists success_events; vm_compute; reflexivity).
  exact (conj Hr (progress_range "workflow-1" _ Hr)).
Defined.

(** [loading_always_cleared] for a rejection with [undefined]. *)
Lemma loading_always_cleared_witness :
  reachable "workflow-1" (after "workflow-1" submit_events) /\
  lookup 1%nat (tasks (after "workflow-1" submit_events))
    = Some (generateImage_suspended "workflow-1" valid_png "a cat") /\
  exists w1,
    step "workflow-1" (SettleExecuteWorkflow 1%nat (Rejected ThrownNullish))
         (after "workflow-1" submit_events) = Some w1 /\
    lookup 1%nat (tasks w1) = None /\
    isLoading (store w1) = false /\
    currentRunId (store w1) = None /\
    tasks w1 = remove_key 1%nat (tasks (after "workflow-1" submit_events)).
Proof.
  assert (Hr : reachable "workflow-1" (after "workflow-1" submit_events))
    by (exists submit_events; vm_compute; reflexivity).
  assert (Ht : lookup 1%nat (tasks (after "workflow-1" submit_events))
               = Some (generateImage_suspended "workflow-1" valid_png "a cat"))
    by (vm_compute; reflexivity).
  exact (conj Hr (conj Ht
           (loading_always_cleared "workflow-1" _ 1%nat valid_png "a cat"
              (Rejected ThrownNullish) Hr Ht))).
Defined.

(** [fetchPastRuns_settled] for the call made when the component mounts. *)
Lemma fetchPastRuns_settled_witness :
  lookup 0%nat (tasks mounted) = Some fetchPastRuns /\
  exists w' l,
    step "workflow-1" (SettleGetRuns 0%nat (Fulfilled runs_answer)) mounted = Some w' /\
    log w' = log mounted ++ l /\
    store w' = store (perform (setPastRuns (pastRuns (store w'))) mounted) /\
    timers w' = timers mounted /\
    tasks w' = remove_key 0%nat (tasks mounted) /\
    l = [] /\
    pastRuns (store w')
      = [mkRun "run-1" "completed" [mkRunOutput "out.png" "https://x/out.png"]].
Proof.
  assert (Ht : lookup 0%nat (tasks mounted) = Some fetchPastRuns) by reflexivity.
  exact (conj Ht (fetchPastRuns_settled "workflow-1" mounted 0%nat
                    (Fulfilled runs_answer) Ht)).
Defined.

(** [cancel_request_sent] while run 1 refreshes the past runs. *)
Lemma cancel_request_sent_witness :
  isLoading (store (after "workflow-1" success_events)) = true /\
  currentRunId (store (after "workflow-1" success_events)) = Some "run-1" /\
  exists w',
    step "workflow-1" ClickCancel (after "workflow-1" success_events) = Some w' /\
    store w' = store (after "workflow-1" success_events) /\
    timers w' = timers (after "workflow-1" success_events) /\
    log w' = log (after "workflow-1" success_events) ++ [CancelRunRequest "run-1"] /\
    tasks w' = tasks (after "workflow-1" success_events)
               ++ [(next_task (after "workflow-1" success_events),
                    handleCancel_suspended "run-1")].
Proof.
  assert (Hl : isLoading (store (after "workflow-1" success_events)) = true)
    by (vm_compute; reflexivity).
  assert (Hid : currentRunId (store (after "workflow-1" success_events)) = Some "run-1")
    by (vm_compute; reflexivity).
  exact (conj Hl (conj Hid
           (cancel_request_sent "workflow-1" _ "run-1" Hl Hid))).
Defined.


(** [no_double_submit] for a firing, a click on Cancel and an edit of the
    prompt during the flight. *)
Lemma no_double_submit_witness :
  reachable "workflow-1" (after "workflow-1" select_events) /\
  quiescent (after "workflow-1" select_events) /\
  step "workflow-1" ClickTransform (after "workflow-1" select_events)
    = Some (after "workflow-1" submit_events) /\
  none_settles_execute [TimerFire 0%nat; ClickCancel; TypePrompt "a dog"] /\
  run "workflow-1" [TimerFire 0%nat; ClickCancel; TypePrompt "a dog"]
      (after "workflow-1" submit_events)
    = Some (after "workflow-1"
              (submit_events ++ [TimerFire 0%nat; ClickCancel; TypePrompt "a dog"])) /\
  isLoading
    (store (after "workflow-1"
              (submit_events ++ [TimerFire 0%nat; ClickCancel; TypePrompt "a dog"])))
    = true /\
  step "workflow-1" ClickTransform
       (after "workflow-1"
          (submit_events ++ [TimerFire 0%nat; ClickCancel; TypePrompt "a dog"]))
    = None.
Proof.
  assert (Hr : reachable "workflow-1" (after "workflow-1" select_events))
    by (exists select_events; vm_compute; reflexivity).
  assert (Hq : quiescent (after "workflow-1" select_events))
    by (repeat constructor).
  assert (Hs : step "workflow-1" ClickTransform (after "workflow-1" select_events)
               = Some (after "workflow-1" submit_events))
    by (vm_compute; reflexivity).
  assert (He : none_settles_execute [TimerFire 0%nat; ClickCancel; TypePrompt "a dog"])
    by reflexivity.
  assert (Hrun : run "workflow-1" [TimerFire 0%nat; ClickCancel; TypePrompt "a dog"]
                     (after "workflow-1" submit_events)
                 = Some (after "workflow-1"
                           (submit_events
                            ++ [TimerFire 0%nat; ClickCancel; TypePrompt "a dog"])))
    by (vm_compute; reflexivity).
  destruct (no_double_submit "workflow-1" _ _ _ _ Hr Hq Hs He Hrun) as (H1 & H2 & _).
  exact (conj Hr (conj Hq (conj Hs (conj He (conj Hrun (conj H1 H2)))))).
Defined.

(** [drop_then_remove] at the mounted component. *)
Lemma drop_then_remove_witness :
  inputFile (store mounted) = None /\
  previewUrl (store mounted) = "" /\
  (size valid_png <= 10 * 1024 * 1024)%Z /\
  object_url valid_png <> "" /\
  run "workflow-1" [Drop [valid_png]; ClickRemoveImage] mounted = Some mounted.
Proof.
  assert (Hs : (size valid_png <= 10 * 1024 * 1024)%Z) by (vm_compute; discriminate).
  assert (Hu : object_url valid_png <> "") by discriminate.
  exact (conj eq_refl (conj eq_refl (conj Hs (conj Hu
           (drop_then_remove "workflow-1" mounted valid_png [] eq_refl eq_refl Hs Hu))))).
Defined.
